(** * Erathia native terrain add-on: chunk scheduler, terrain cache and
      vegetation placement cache

    A shallow embedding of [native_terrain_generator.{h,cpp}] and
    [native_vegetation_dispatcher.{h,cpp}].

    Conventions of the embedding.
    - C++ [int], [uint32_t] and [uint64_t] are [Z]/[N] with the wrap-around
      written out ([wrap32], [u64]).
    - [real_t]/[float] values that the code computes with (priorities,
      positions of the observer) are IEEE-754 binary32 numbers, taken from
      the standard library's [SpecFloat] at precision 24 and [emax] 128.
    - A [PackedByteArray] is a list of bytes; [float] fields that are only
      copied (placement records, voxel payloads) are carried as their 32-bit
      patterns.
    - A Godot [Dictionary] is a finite map from string keys to variants; the
      terrain cache is a [Dictionary] whose keys are [Vector3i] or [String]
      variants.
    - The [RenderingDevice] is the graphics driver: it is modelled by the
      set of live resource ids, a script giving the outcome of the next
      creation calls, a log of the compute dispatches and the bytes a
      read-back returns.  What the kernels compute is outside the model.
    - Every region between a [lock()] and its [unlock()] is a function of
      its own, so that the code of two threads can be interleaved at
      exactly the points where the mutexes allow it. *)

From Stdlib Require Import ZArith List Bool Lia Sorting.Sorted.
From Stdlib Require Import Floats.SpecFloat.
From stdpp Require Import gmap strings list fin_maps pretty.

Local Open Scope Z_scope.

(** ** Machine integers *)

Definition wrap32 (z : Z) : Z := (z + 2^31) mod 2^32 - 2^31.
Definition u32 (z : Z) : Z := z mod 2^32.
Definition u64 (z : Z) : Z := z mod 2^64.

(** ** [real_t]: IEEE-754 binary32 *)

Abbreviation real_t := spec_float (only parsing).

Definition real_of_int (z : Z) : real_t := binary_normalize 24 128 z 0 false.
Definition real_add : real_t -> real_t -> real_t := SFadd 24 128.
Definition real_sub : real_t -> real_t -> real_t := SFsub 24 128.
Definition real_mul : real_t -> real_t -> real_t := SFmul 24 128.
Definition real_sqrt : real_t -> real_t := SFsqrt 24 128.
Definition real_eqb : real_t -> real_t -> bool := SFeqb.
Definition real_ltb : real_t -> real_t -> bool := SFltb.

(** ** Godot value types *)

(** [RID]: a 64-bit resource id, 0 being the null id of [RID()]. *)
Abbreviation RID := N (only parsing).

Definition RID_null : RID := 0%N.
Definition is_valid (r : RID) : bool := negb (N.eqb r 0).

Record Vector3i := mkVector3i { v3i_x : Z; v3i_y : Z; v3i_z : Z }.

Global Instance Vector3i_eq_dec : EqDecision Vector3i.
Proof. solve_decision. Defined.

Global Program Instance Vector3i_countable : Countable Vector3i :=
  inj_countable' (fun v => (v3i_x v, v3i_y v, v3i_z v))
                 (fun t => mkVector3i t.1.1 t.1.2 t.2) _.
Next Obligation. by intros []. Qed.

Record Vector3 := mkVector3 { v3_x : real_t; v3_y : real_t; v3_z : real_t }.

(** [Vector3::operator!=]: componentwise float comparison. *)
Definition Vector3_ne (a b : Vector3) : bool :=
  negb (real_eqb (v3_x a) (v3_x b)) ||
  negb (real_eqb (v3_y a) (v3_y b)) ||
  negb (real_eqb (v3_z a) (v3_z b)).

(** [Vector3::distance_to]: [sqrt] of the sum of the squared differences. *)
Definition distance_to (a b : Vector3) : real_t :=
  let dx := real_sub (v3_x b) (v3_x a) in
  let dy := real_sub (v3_y b) (v3_y a) in
  let dz := real_sub (v3_z b) (v3_z a) in
  real_sqrt (real_add (real_add (real_mul dx dx) (real_mul dy dy))
                      (real_mul dz dz)).

Abbreviation PackedByteArray := (list Byte.byte) (only parsing).

(** Little-endian 32-bit words, as [memcpy] reads and writes them. *)
Definition byte_of_N (n : N) : Byte.byte :=
  match Byte.of_N (n mod 256) with Some b => b | None => Byte.x00 end.

Definition le32_encode (w : N) : PackedByteArray :=
  [ byte_of_N w; byte_of_N (w / 256);
    byte_of_N (w / 65536); byte_of_N (w / 16777216) ].

Definition le32_decode (b0 b1 b2 b3 : Byte.byte) : N :=
  (Byte.to_N b0 + 256 * Byte.to_N b1 + 65536 * Byte.to_N b2
   + 16777216 * Byte.to_N b3)%N.

(** Reads the word at byte offset [off]; bytes past the end of the array
    read as zero (the source reads out of bounds there). *)
Definition read_u32 (data : PackedByteArray) (off : nat) : N :=
  le32_decode (nth off data Byte.x00) (nth (off + 1) data Byte.x00)
              (nth (off + 2) data Byte.x00) (nth (off + 3) data Byte.x00).

(** The variants the two classes store in dictionaries. *)
Inductive GdVariant :=
| VBool (b : bool)
| VRID (r : RID)
| VBytes (b : PackedByteArray).

Abbreviation Dictionary := (gmap string GdVariant) (only parsing).

Definition dict_has (d : Dictionary) (k : string) : bool :=
  match d !! k with Some _ => true | None => false end.

(** Conversion of a stored variant to [RID], [bool], [PackedByteArray]:
    a missing key or another type converts to the default value. *)
Definition dict_rid (d : Dictionary) (k : string) : RID :=
  match d !! k with Some (VRID r) => r | _ => RID_null end.
Definition dict_bool (d : Dictionary) (k : string) : bool :=
  match d !! k with Some (VBool b) => b | Some (VRID r) => is_valid r
                  | Some (VBytes b) => negb (Nat.eqb (length b) 0) | None => false end.
Definition dict_bytes (d : Dictionary) (k : string) : PackedByteArray :=
  match d !! k with Some (VBytes b) => b | _ => [] end.

(** ** The rendering device *)

(** One entry of the dispatch log per [compute_list_dispatch]. *)
Inductive Dispatch :=
| DispatchBiomeMap
| DispatchSDF (chunk_origin : Vector3i)
| DispatchPlacement (chunk_origin : Vector3i) (veg_type : Z)
| DispatchTransform (placement_count : N).

Record RenderingDevice := mkRenderingDevice {
  (** how many resources the device has created so far *)
  rd_created : N;
  rd_live : gset N;
  rd_outcomes : list bool;
  rd_dispatch_log : list Dispatch;
  rd_contents : N -> list Byte.byte
}.

(** Any of [texture_create], [storage_buffer_create], [sampler_create],
    [shader_create_from_spirv], [compute_pipeline_create]: the next entry
    of the script tells whether the driver succeeds (it does once the
    script is exhausted); a failed call returns the null id, a successful
    one the next id, counting from 1. *)
Definition rd_create (d : RenderingDevice) : RID * RenderingDevice :=
  match rd_outcomes d with
  | false :: rest =>
      (RID_null,
       mkRenderingDevice (rd_created d) (rd_live d) rest
                         (rd_dispatch_log d) (rd_contents d))
  | _ =>
      (N.succ (rd_created d),
       mkRenderingDevice (N.succ (rd_created d))
                         ({[ N.succ (rd_created d) ]} ∪ rd_live d)
                         (tl (rd_outcomes d))
                         (rd_dispatch_log d) (rd_contents d))
  end.

(** [uniform_set_create]: refused outright when a bound id is null. *)
Definition uniform_set_create (ids : list RID) (d : RenderingDevice)
  : RID * RenderingDevice :=
  if forallb is_valid ids then rd_create d else (RID_null, d).

Definition free_rid (r : RID) (d : RenderingDevice) : RenderingDevice :=
  mkRenderingDevice (rd_created d) (rd_live d ∖ {[ r ]}) (rd_outcomes d)
                    (rd_dispatch_log d) (rd_contents d).

Definition compute_list_dispatch (x : Dispatch) (d : RenderingDevice)
  : RenderingDevice :=
  mkRenderingDevice (rd_created d) (rd_live d) (rd_outcomes d)
                    (rd_dispatch_log d ++ [x]) (rd_contents d).

(** [texture_get_data] and [buffer_get_data]: empty for a dead id. *)
Definition texture_get_data (r : RID) (d : RenderingDevice) : PackedByteArray :=
  if bool_decide (r ∈ rd_live d) then rd_contents d r else [].

Definition buffer_get_data (r : RID) (d : RenderingDevice) : PackedByteArray :=
  texture_get_data r d.

Definition buffer_get_data_range (r : RID) (off len : nat) (d : RenderingDevice)
  : PackedByteArray :=
  firstn len (skipn off (texture_get_data r d)).

(** ** The host process: what the engine supplies to the two classes *)

Record Host := mkHost {
  (** [RenderingServer::get_singleton()] is not null *)
  host_rendering_server : bool;
  (** the device [create_local_rendering_device] returns, if any *)
  host_local_device : option RenderingDevice;
  (** each kernel source is found, is not empty and compiles *)
  host_biome_map_kernel : bool;
  host_sdf_kernel : bool;
  host_placement_kernel : bool;
  host_transform_kernel : bool;
  (** [Time::get_ticks_usec()] *)
  host_ticks_usec : Z;
  (** how long a blocking [sync()] keeps the caller *)
  host_sync_usec : Z
}.

Definition elapse (dt : Z) (h : Host) : Host :=
  mkHost (host_rendering_server h) (host_local_device h)
         (host_biome_map_kernel h) (host_sdf_kernel h)
         (host_placement_kernel h) (host_transform_kernel h)
         (u64 (host_ticks_usec h + dt)) (host_sync_usec h).

(** ** The voxel buffer that receives decoded chunks *)

(** One channel of a [VoxelBuffer]: a uniform fill value (what
    [clear_channel] leaves) and the voxels written since. *)
Record Channel := mkChannel {
  channel_fill : N;
  channel_voxels : gmap Vector3i N
}.

Record VoxelBuffer := mkVoxelBuffer {
  CHANNEL_SDF : Channel;
  CHANNEL_INDICES : Channel
}.

Definition get_voxel (c : Channel) (x y z : Z) : N :=
  default (channel_fill c) (channel_voxels c !! mkVector3i x y z).

Definition set_voxel (value : N) (x y z : Z) (c : Channel) : Channel :=
  mkChannel (channel_fill c) (<[ mkVector3i x y z := value ]> (channel_voxels c)).

Definition clear_channel (value : N) (c : Channel) : Channel :=
  mkChannel value ∅.

(** The bit pattern of [1.0f]. *)
Definition float_one_bits : N := 1065353216%N.

(** The iteration space of the triple loop: [z] outermost, [x] innermost. *)
Definition voxel_loop (chunk_size : Z) : list (Z * Z * Z) :=
  z ← seqZ 0 chunk_size; y ← seqZ 0 chunk_size; x ← seqZ 0 chunk_size;
  [ (x, y, z) ].

(** The body shared by the two decode loops: voxel [(x, y, z)] is read at
    byte [(z * chunk_size * chunk_size + y * chunk_size + x) * 4] of both
    arrays. *)
Definition decode_voxel (chunk_size : Z) (sdf_data mat_data : PackedByteArray)
    (out : VoxelBuffer) (p : Z * Z * Z) : VoxelBuffer :=
  let '(x, y, z) := p in
  let idx := Z.to_nat ((z * chunk_size * chunk_size + y * chunk_size + x) * 4) in
  mkVoxelBuffer
    (set_voxel (read_u32 sdf_data idx) x y z (CHANNEL_SDF out))
    (set_voxel (read_u32 mat_data idx) x y z (CHANNEL_INDICES out)).

Definition decode_voxels (chunk_size : Z) (sdf_data mat_data : PackedByteArray)
    (out : VoxelBuffer) : VoxelBuffer :=
  fold_left (decode_voxel chunk_size sdf_data mat_data) (voxel_loop chunk_size) out.

(** * NativeTerrainGenerator *)

Module NativeTerrainGenerator.

(** Keys of [sdf_cache]: the background thread stores under the [Vector3i]
    origin, [generate_block] under a formatted [String]. *)
Inductive CacheKey :=
| KeyVector3i (o : Vector3i)
| KeyString (k : string).

Global Instance CacheKey_eq_dec : EqDecision CacheKey.
Proof. solve_decision. Defined.

Global Program Instance CacheKey_countable : Countable CacheKey :=
  inj_countable'
    (fun k => match k with KeyVector3i o => inl o | KeyString t => inr t end)
    (fun t => match t with inl o => KeyVector3i o | inr t => KeyString t end) _.
Next Obligation. by intros []. Qed.

Record ChunkRequest := mkChunkRequest {
  request_origin : Vector3i;
  request_lod : Z;
  request_priority : real_t;
  request_time_us : Z
}.

(** [ChunkRequest::operator<]: [priority > other.priority]. *)
Definition ChunkRequest_lt (a other : ChunkRequest) : bool :=
  real_ltb (request_priority other) (request_priority a).

Record ChunkGPUState := mkChunkGPUState {
  sdf_texture : RID;
  material_texture : RID;
  fence : RID;
  dispatch_time_us : Z;
  completion_time_us : Z;
  gpu_complete : bool;
  cpu_readback_complete : bool;
  physics_needed : bool;
  lod : Z;
  sdf_data : PackedByteArray;
  mat_data : PackedByteArray
}.

(** *** [std::priority_queue<ChunkRequest>]

    The queue is kept as the list of its elements in insertion order.
    [top()] is an element that is not [operator<] any other; the standard
    leaves open which one when several qualify.  [pq_extract] is [top()]
    followed by [pop()], choosing the earliest inserted such element. *)

Definition pq_push (r : ChunkRequest) (q : list ChunkRequest) : list ChunkRequest :=
  q ++ [r].

Fixpoint pq_extract (q : list ChunkRequest)
  : option (ChunkRequest * list ChunkRequest) :=
  match q with
  | [] => None
  | x :: q' =>
      match pq_extract q' with
      | None => Some (x, [])
      | Some (y, rest) =>
          if ChunkRequest_lt x y then Some (y, x :: rest) else Some (x, q')
      end
  end.




Record state := mkState {
  rd : option RenderingDevice;
  biome_map_shader : RID;
  biome_map_pipeline : RID;
  biome_map_texture : RID;
  sdf_shader : RID;
  sdf_pipeline : RID;
  cached_sampler : RID;
  sdf_cache : gmap CacheKey (gmap string GdVariant);
  chunk_size : Z;
  gpu_initialized : bool;
  chunk_request_queue : list ChunkRequest;
  chunk_gpu_states : gmap Vector3i ChunkGPUState;
  player_position : Vector3;
  frame_gpu_budget_us : Z;
  current_frame_gpu_time_us : Z;
  chunks_dispatched_this_frame : Z;
  chunks_completed_this_frame : Z;
  total_gpu_time_us : Z;
  total_chunks_generated : Z;
  host : Host
}.

Definition set_rd (v : option RenderingDevice) (s : state) : state :=
  mkState v (biome_map_shader s) (biome_map_pipeline s) (biome_map_texture s) (sdf_shader s) (sdf_pipeline s) (cached_sampler s) (sdf_cache s) (chunk_size s) (gpu_initialized s) (chunk_request_queue s) (chunk_gpu_states s) (player_position s) (frame_gpu_budget_us s) (current_frame_gpu_time_us s) (chunks_dispatched_this_frame s) (chunks_completed_this_frame s) (total_gpu_time_us s) (total_chunks_generated s) (host s).
Definition set_biome_map_shader (v : RID) (s : state) : state :=
  mkState (rd s) v (biome_map_pipeline s) (biome_map_texture s) (sdf_shader s) (sdf_pipeline s) (cached_sampler s) (sdf_cache s) (chunk_size s) (gpu_initialized s) (chunk_request_queue s) (chunk_gpu_states s) (player_position s) (frame_gpu_budget_us s) (current_frame_gpu_time_us s) (chunks_dispatched_this_frame s) (chunks_completed_this_frame s) (total_gpu_time_us s) (total_chunks_generated s) (host s).
Definition set_biome_map_pipeline (v : RID) (s : state) : state :=
  mkState (rd s) (biome_map_shader s) v (biome_map_texture s) (sdf_shader s) (sdf_pipeline s) (cached_sampler s) (sdf_cache s) (chunk_size s) (gpu_initialized s) (chunk_request_queue s) (chunk_gpu_states s) (player_position s) (frame_gpu_budget_us s) (current_frame_gpu_time_us s) (chunks_dispatched_this_frame s) (chunks_completed_this_frame s) (total_gpu_time_us s) (total_chunks_generated s) (host s).
Definition set_biome_map_texture (v : RID) (s : state) : state :=
  mkState (rd s) (biome_map_shader s) (biome_map_pipeline s) v (sdf_shader s) (sdf_pipeline s) (cached_sampler s) (sdf_cache s) (chunk_size s) (gpu_initialized s) (chunk_request_queue s) (chunk_gpu_states s) (player_position s) (frame_gpu_budget_us s) (current_frame_gpu_time_us s) (chunks_dispatched_this_frame s) (chunks_completed_this_frame s) (total_gpu_time_us s) (total_chunks_generated s) (host s).
Definition set_sdf_shader (v : RID) (s : state) : state :=
  mkState (rd s) (biome_map_shader s) (biome_map_pipeline s) (biome_map_texture s) v (sdf_pipeline s) (cached_sampler s) (sdf_cache s) (chunk_size s) (gpu_initialized s) (chunk_request_queue s) (chunk_gpu_states s) (player_position s) (frame_gpu_budget_us s) (current_frame_gpu_time_us s) (chunks_dispatched_this_frame s) (chunks_completed_this_frame s) (total_gpu_time_us s) (total_chunks_generated s) (host s).
Definition set_sdf_pipeline (v : RID) (s : state) : state :=
  mkState (rd s) (biome_map_shader s) (biome_map_pipeline s) (biome_map_texture s) (sdf_shader s) v (cached_sampler s) (sdf_cache s) (chunk_size s) (gpu_initialized s) (chunk_request_queue s) (chunk_gpu_states s) (player_position s) (frame_gpu_budget_us s) (current_frame_gpu_time_us s) (chunks_dispatched_this_frame s) (chunks_completed_this_frame s) (total_gpu_time_us s) (total_chunks_generated s) (host s).
Definition set_cached_sampler (v : RID) (s : state) : state :=
  mkState (rd s) (biome_map_shader s) (biome_map_pipeline s) (biome_map_texture s) (sdf_shader s) (sdf_pipeline s) v (sdf_cache s) (chunk_size s) (gpu_initialized s) (chunk_request_queue s) (chunk_gpu_states s) (player_position s) (frame_gpu_budget_us s) (current_frame_gpu_time_us s) (chunks_dispatched_this_frame s) (chunks_completed_this_frame s) (total_gpu_time_us s) (total_chunks_generated s) (host s).
Definition set_sdf_cache (v : gmap CacheKey (gmap string GdVariant)) (s : state) : state :=
  mkState (rd s) (biome_map_shader s) (biome_map_pipeline s) (biome_map_texture s) (sdf_shader s) (sdf_pipeline s) (cached_sampler s) v (chunk_size s) (gpu_initialized s) (chunk_request_queue s) (chunk_gpu_states s) (player_position s) (frame_gpu_budget_us s) (current_frame_gpu_time_us s) (chunks_dispatched_this_frame s) (chunks_completed_this_frame s) (total_gpu_time_us s) (total_chunks_generated s) (host s).
Definition set_chunk_size (v : Z) (s : state) : state :=
  mkState (rd s) (biome_map_shader s) (biome_map_pipeline s) (biome_map_texture s) (sdf_shader s) (sdf_pipeline s) (cached_sampler s) (sdf_cache s) v (gpu_initialized s) (chunk_request_queue s) (chunk_gpu_states s) (player_position s) (frame_gpu_budget_us s) (current_frame_gpu_time_us s) (chunks_dispatched_this_frame s) (chunks_completed_this_frame s) (total_gpu_time_us s) (total_chunks_generated s) (host s).
Definition set_gpu_initialized (v : bool) (s : state) : state :=
  mkState (rd s) (biome_map_shader s) (biome_map_pipeline s) (biome_map_texture s) (sdf_shader s) (sdf_pipeline s) (cached_sampler s) (sdf_cache s) (chunk_size s) v (chunk_request_queue s) (chunk_gpu_states s) (player_position s) (frame_gpu_budget_us s) (current_frame_gpu_time_us s) (chunks_dispatched_this_frame s) (chunks_completed_this_frame s) (total_gpu_time_us s) (total_chunks_generated s) (host s).
Definition set_chunk_request_queue (v : list ChunkRequest) (s : state) : state :=
  mkState (rd s) (biome_map_shader s) (biome_map_pipeline s) (biome_map_texture s) (sdf_shader s) (sdf_pipeline s) (cached_sampler s) (sdf_cache s) (chunk_size s) (gpu_initialized s) v (chunk_gpu_states s) (player_position s) (frame_gpu_budget_us s) (current_frame_gpu_time_us s) (chunks_dispatched_this_frame s) (chunks_completed_this_frame s) (total_gpu_time_us s) (total_chunks_generated s) (host s).
Definition set_chunk_gpu_states (v : gmap Vector3i ChunkGPUState) (s : state) : state :=
  mkState (rd s) (biome_map_shader s) (biome_map_pipeline s) (biome_map_texture s) (sdf_shader s) (sdf_pipeline s) (cached_sampler s) (sdf_cache s) (chunk_size s) (gpu_initialized s) (chunk_request_queue s) v (player_position s) (frame_gpu_budget_us s) (current_frame_gpu_time_us s) (chunks_dispatched_this_frame s) (chunks_completed_this_frame s) (total_gpu_time_us s) (total_chunks_generated s) (host s).
Definition set_player_position (v : Vector3) (s : state) : state :=
  mkState (rd s) (biome_map_shader s) (biome_map_pipeline s) (biome_map_texture s) (sdf_shader s) (sdf_pipeline s) (cached_sampler s) (sdf_cache s) (chunk_size s) (gpu_initialized s) (chunk_request_queue s) (chunk_gpu_states s) v (frame_gpu_budget_us s) (current_frame_gpu_time_us s) (chunks_dispatched_this_frame s) (chunks_completed_this_frame s) (total_gpu_time_us s) (total_chunks_generated s) (host s).
Definition set_current_frame_gpu_time_us (v : Z) (s : state) : state :=
  mkState (rd s) (biome_map_shader s) (biome_map_pipeline s) (biome_map_texture s) (sdf_shader s) (sdf_pipeline s) (cached_sampler s) (sdf_cache s) (chunk_size s) (gpu_initialized s) (chunk_request_queue s) (chunk_gpu_states s) (player_position s) (frame_gpu_budget_us s) v (chunks_dispatched_this_frame s) (chunks_completed_this_frame s) (total_gpu_time_us s) (total_chunks_generated s) (host s).
Definition set_chunks_dispatched_this_frame (v : Z) (s : state) : state :=
  mkState (rd s) (biome_map_shader s) (biome_map_pipeline s) (biome_map_texture s) (sdf_shader s) (sdf_pipeline s) (cached_sampler s) (sdf_cache s) (chunk_size s) (gpu_initialized s) (chunk_request_queue s) (chunk_gpu_states s) (player_position s) (frame_gpu_budget_us s) (current_frame_gpu_time_us s) v (chunks_completed_this_frame s) (total_gpu_time_us s) (total_chunks_generated s) (host s).
Definition set_chunks_completed_this_frame (v : Z) (s : state) : state :=
  mkState (rd s) (biome_map_shader s) (biome_map_pipeline s) (biome_map_texture s) (sdf_shader s) (sdf_pipeline s) (cached_sampler s) (sdf_cache s) (chunk_size s) (gpu_initialized s) (chunk_request_queue s) (chunk_gpu_states s) (player_position s) (frame_gpu_budget_us s) (current_frame_gpu_time_us s) (chunks_dispatched_this_frame s) v (total_gpu_time_us s) (total_chunks_generated s) (host s).
Definition set_total_gpu_time_us (v : Z) (s : state) : state :=
  mkState (rd s) (biome_map_shader s) (biome_map_pipeline s) (biome_map_texture s) (sdf_shader s) (sdf_pipeline s) (cached_sampler s) (sdf_cache s) (chunk_size s) (gpu_initialized s) (chunk_request_queue s) (chunk_gpu_states s) (player_position s) (frame_gpu_budget_us s) (current_frame_gpu_time_us s) (chunks_dispatched_this_frame s) (chunks_completed_this_frame s) v (total_chunks_generated s) (host s).
Definition set_total_chunks_generated (v : Z) (s : state) : state :=
  mkState (rd s) (biome_map_shader s) (biome_map_pipeline s) (biome_map_texture s) (sdf_shader s) (sdf_pipeline s) (cached_sampler s) (sdf_cache s) (chunk_size s) (gpu_initialized s) (chunk_request_queue s) (chunk_gpu_states s) (player_position s) (frame_gpu_budget_us s) (current_frame_gpu_time_us s) (chunks_dispatched_this_frame s) (chunks_completed_this_frame s) (total_gpu_time_us s) v (host s).
Definition set_host (v : Host) (s : state) : state :=
  mkState (rd s) (biome_map_shader s) (biome_map_pipeline s) (biome_map_texture s) (sdf_shader s) (sdf_pipeline s) (cached_sampler s) (sdf_cache s) (chunk_size s) (gpu_initialized s) (chunk_request_queue s) (chunk_gpu_states s) (player_position s) (frame_gpu_budget_us s) (current_frame_gpu_time_us s) (chunks_dispatched_this_frame s) (chunks_completed_this_frame s) (total_gpu_time_us s) (total_chunks_generated s) v.

(** *** GPU initialisation *)

(** [compile_biome_map_shader] / [compile_sdf_shader]: load and compile the
    kernel, create the shader, then the pipeline. *)
Definition compile_shader (kernel_ok : bool) (d : RenderingDevice)
  : bool * RID * RID * RenderingDevice :=
  if negb kernel_ok then (false, RID_null, RID_null, d) else
  let '(sh, d1) := rd_create d in
  if negb (is_valid sh) then (false, sh, RID_null, d1) else
  let '(pl, d2) := rd_create d1 in
  if negb (is_valid pl) then (false, sh, pl, d2) else (true, sh, pl, d2).

Definition initialize_gpu (s : state) : bool * state :=
  if gpu_initialized s then (true, s) else
  if negb (host_rendering_server (host s)) then (false, s) else
  match host_local_device (host s) with
  | None => (false, set_rd None s)
  | Some d =>
      let '(ok1, sh1, pl1, d1) := compile_shader (host_biome_map_kernel (host s)) d in
      let s1 := (if negb (host_biome_map_kernel (host s)) then s
                 else set_biome_map_pipeline
                        (if is_valid sh1 then pl1 else biome_map_pipeline s)
                        (set_biome_map_shader sh1 s)) in
      if negb ok1 then (false, set_rd (Some d1) s1) else
      let '(ok2, sh2, pl2, d2) := compile_shader (host_sdf_kernel (host s)) d1 in
      let s2 := (if negb (host_sdf_kernel (host s)) then s1
                 else set_sdf_pipeline
                        (if is_valid sh2 then pl2 else sdf_pipeline s1)
                        (set_sdf_shader sh2 s1)) in
      if negb ok2 then (false, set_rd (Some d2) s2) else
      (true, set_gpu_initialized true (set_rd (Some d2) s2))
  end.

(** The constructor: default members, then [initialize_gpu()].  (The
    background thread it starts is [readback_worker_iteration] below.) *)
Definition construct (h : Host) : state :=
  snd (initialize_gpu
         (mkState None RID_null RID_null RID_null RID_null RID_null RID_null
                  ∅ 32 false [] ∅
                  (mkVector3 (real_of_int 0) (real_of_int 0) (real_of_int 0))
                  8000 0 0 0 0 0 h)).

(** *** Biome map and SDF dispatch *)

Definition create_3d_texture (d : RenderingDevice) : RID * RenderingDevice :=
  rd_create d.

Definition get_or_create_sampler (d : RenderingDevice) (s : state)
  : RID * RenderingDevice * state :=
  if is_valid (cached_sampler s) then (cached_sampler s, d, s)
  else let '(r, d') := rd_create d in (r, d', set_cached_sampler r s).

Definition generate_biome_map_if_needed (s : state) : state :=
  if is_valid (biome_map_texture s) then s else
  match rd s with
  | None => s
  | Some d =>
      if negb (gpu_initialized s) || negb (is_valid (biome_map_pipeline s))
      then s else
      let '(tex, d1) := rd_create d in
      if negb (is_valid tex)
      then set_rd (Some d1) (set_biome_map_texture tex s) else
      let '(uniform_set, d2) := uniform_set_create [tex] d1 in
      if negb (is_valid uniform_set)
      then set_rd (Some (free_rid tex d2)) (set_biome_map_texture RID_null s)
      else set_rd (Some (free_rid uniform_set
                           (compute_list_dispatch DispatchBiomeMap d2)))
                  (set_biome_map_texture tex s)
  end.

(** The dictionary [generate_chunk_sdf] returns after a dispatch. *)
Definition sdf_result (sdf_tex mat_tex : RID) : Dictionary :=
  <[ "sdf" := VRID sdf_tex ]>
    (<[ "material" := VRID mat_tex ]> (<[ "ready" := VBool false ]> ∅)).

Definition generate_chunk_sdf (chunk_origin : Vector3i) (s : state)
  : Dictionary * state :=
  match rd s with
  | None => (∅, s)
  | Some _ =>
    if negb (gpu_initialized s) || negb (is_valid (sdf_pipeline s))
    then (∅, s) else
    let s := generate_biome_map_if_needed s in
    match sdf_cache s !! KeyVector3i chunk_origin with
    | Some cached => (cached, s)
    | None =>
      match rd s with
      | None => (∅, s)
      | Some d =>
        let '(sdf_tex, d) := create_3d_texture d in
        if negb (is_valid sdf_tex) then (∅, set_rd (Some d) s) else
        let '(mat_tex, d) := create_3d_texture d in
        if negb (is_valid mat_tex)
        then (∅, set_rd (Some (free_rid sdf_tex d)) s) else
        if negb (is_valid (biome_map_texture s))
        then (∅, set_rd (Some d) s) else
        let '(sampler, d, s) := get_or_create_sampler d s in
        let '(uniform_set, d) :=
          uniform_set_create [sampler; biome_map_texture s; sdf_tex; mat_tex] d in
        if negb (is_valid uniform_set)
        then (∅, set_rd (Some (free_rid mat_tex (free_rid sdf_tex d))) s) else
        let d := free_rid uniform_set
                   (compute_list_dispatch (DispatchSDF chunk_origin) d) in
        let st := mkChunkGPUState sdf_tex mat_tex RID_null
                    (host_ticks_usec (host s)) 0 false false false 0 [] [] in
        (sdf_result sdf_tex mat_tex,
         set_chunk_gpu_states (<[ chunk_origin := st ]> (chunk_gpu_states s))
           (set_rd (Some d) s))
      end
    end
  end.

(** The locked region at the end of [dispatch_chunk_async]. *)
Definition dispatch_set_flags (origin : Vector3i) (new_lod : Z) (s : state) : state :=
  match chunk_gpu_states s !! origin with
  | None => s
  | Some st =>
      let st' := mkChunkGPUState (sdf_texture st) (material_texture st) (fence st)
                   (dispatch_time_us st) (completion_time_us st)
                   (gpu_complete st) (cpu_readback_complete st)
                   (new_lod =? 0) new_lod (sdf_data st) (mat_data st) in
      set_chunk_gpu_states (<[ origin := st' ]> (chunk_gpu_states s)) s
  end.

Definition dispatch_chunk_async (origin : Vector3i) (new_lod : Z) (s : state) : state :=
  dispatch_set_flags origin new_lod (snd (generate_chunk_sdf origin s)).

(** *** Request queue and frame budget *)

Definition poll_gpu_completion (origin : Vector3i) (s : state) : bool :=
  match chunk_gpu_states s !! origin with
  | None => false
  | Some st => gpu_complete st
  end.

(** [Vector3(origin.x + chunk_size/2, ...)]: [int] arithmetic, then the
    conversion to [real_t]. *)
Definition chunk_center (origin : Vector3i) (size : Z) : Vector3 :=
  let half := Z.quot size 2 in
  mkVector3 (real_of_int (wrap32 (v3i_x origin + half)))
            (real_of_int (wrap32 (v3i_y origin + half)))
            (real_of_int (wrap32 (v3i_z origin + half))).

(** [Vector3(0, 0, 0)]. *)
Definition Vector3_zero : Vector3 :=
  mkVector3 (real_of_int 0) (real_of_int 0) (real_of_int 0).

Definition enqueue_chunk_request (origin : Vector3i) (new_lod : Z)
    (player_pos : Vector3) (s : state) : state :=
  let s := if Vector3_ne player_pos Vector3_zero
           then set_player_position player_pos s else s in
  let distance := distance_to (chunk_center origin (chunk_size s)) (player_position s) in
  let request := mkChunkRequest origin new_lod distance (host_ticks_usec (host s)) in
  set_chunk_request_queue (pq_push request (chunk_request_queue s)) s.

Definition reset_frame_budget (s : state) : state :=
  set_current_frame_gpu_time_us 0 s.

(** First loop of [process_chunk_queue]: fold the measured time of the
    in-flight chunks that are complete into the frame accumulator. *)
Definition fold_measured_time (origin : Vector3i) (s : state) : state :=
  if poll_gpu_completion origin s then
    match chunk_gpu_states s !! origin with
    | Some st =>
        if 0 <? completion_time_us st then
          let measured_time := u64 (completion_time_us st - dispatch_time_us st) in
          set_current_frame_gpu_time_us
            (u64 (current_frame_gpu_time_us s + measured_time)) s
        else s
    | None => s
    end
  else s.

(** Second loop of [process_chunk_queue].  Every iteration pops a request,
    so the length of the queue bounds the number of iterations. *)
Fixpoint dispatch_loop (fuel : nat) (s : state) : state :=
  match fuel with
  | O => s
  | S fuel' =>
      if negb (current_frame_gpu_time_us s <? frame_gpu_budget_us s) then s else
      match pq_extract (chunk_request_queue s) with
      | None => s
      | Some (request, rest) =>
          let s := set_chunk_request_queue rest s in
          let in_cache :=
            bool_decide (is_Some (sdf_cache s !! KeyVector3i (request_origin request))) in
          if in_cache ||
             bool_decide (is_Some (chunk_gpu_states s !! request_origin request))
          then dispatch_loop fuel' s
          else
            let s := dispatch_chunk_async (request_origin request) (request_lod request) s in
            let s := set_chunks_dispatched_this_frame
                       (wrap32 (chunks_dispatched_this_frame s + 1)) s in
            let avg_measured_time :=
              if 0 <? total_chunks_generated s
              then total_gpu_time_us s / u64 (total_chunks_generated s)
              else 2000 in
            let s := set_current_frame_gpu_time_us
                       (u64 (current_frame_gpu_time_us s + avg_measured_time)) s in
            dispatch_loop fuel' s
      end
  end.

Definition process_chunk_queue (s : state) : state :=
  let s := reset_frame_budget s in
  let s := set_chunks_completed_this_frame 0
             (set_chunks_dispatched_this_frame 0 s) in
  let to_check := map fst (map_to_list (chunk_gpu_states s)) in
  let s := fold_left (fun s origin => fold_measured_time origin s) to_check s in
  dispatch_loop (length (chunk_request_queue s)) s.

(** *** The background thread

    One turn of the [while] loop of [readback_worker_loop], cut at the
    mutex boundaries. *)

(** First locked region: the two work lists, in the iteration order of
    the in-flight map. *)
Definition worker_snapshot (s : state) : list Vector3i * list Vector3i :=
  let entries := map_to_list (chunk_gpu_states s) in
  (map fst (List.filter (fun p => negb (gpu_complete (snd p))) entries),
   map fst (List.filter (fun p => gpu_complete (snd p) &&
                                  negb (cpu_readback_complete (snd p))) entries)).

(** Body of the loop that marks completion, for one origin. *)
Definition worker_mark_one (acc : state * list Vector3i) (origin : Vector3i)
  : state * list Vector3i :=
  let '(s, to_readback) := acc in
  match chunk_gpu_states s !! origin with
  | Some st =>
      if negb (gpu_complete st) then
        let now := host_ticks_usec (host s) in
        let st' := mkChunkGPUState (sdf_texture st) (material_texture st) (fence st)
                     (dispatch_time_us st) now true
                     (cpu_readback_complete st) (physics_needed st) (lod st)
                     (sdf_data st) (mat_data st) in
        let measured_time := u64 (now - dispatch_time_us st) in
        (set_total_chunks_generated (wrap32 (total_chunks_generated s + 1))
           (set_total_gpu_time_us (u64 (total_gpu_time_us s + measured_time))
              (set_chunk_gpu_states (<[ origin := st' ]> (chunk_gpu_states s)) s)),
         to_readback ++ [origin])
      else (s, to_readback)
  | None => (s, to_readback)
  end.

(** [barrier()], then the second locked region. *)
Definition worker_mark_complete (to_complete to_readback : list Vector3i)
    (s : state) : state * list Vector3i :=
  match to_complete, rd s with
  | _ :: _, Some _ => fold_left worker_mark_one to_complete (s, to_readback)
  | _, _ => (s, to_readback)
  end.

(** Read-back of one chunk, first locked region: the flag and the two
    texture ids are copied out. *)
Definition worker_readback_begin (origin : Vector3i) (s : state)
  : option (bool * RID * RID) :=
  match chunk_gpu_states s !! origin with
  | None => None
  | Some st => Some (physics_needed st, sdf_texture st, material_texture st)
  end.

(** Outside the lock: the two [texture_get_data] calls, made only when the
    copied flag is set. *)
Definition worker_readback_fetch (needs_physics : bool) (sdf_tex mat_tex : RID)
    (s : state) : PackedByteArray * PackedByteArray :=
  match needs_physics, rd s with
  | true, Some d => (texture_get_data sdf_tex d, texture_get_data mat_tex d)
  | _, _ => ([], [])
  end.

(** The cache entry the background thread writes. *)
Definition migrated_entry (st : ChunkGPUState) (needs_physics : bool)
    (sdf_bytes mat_bytes : PackedByteArray) : Dictionary :=
  let entry : Dictionary :=
    <[ "gpu_complete" := VBool true ]>
      (<[ "material" := VRID (material_texture st) ]>
         (<[ "sdf" := VRID (sdf_texture st) ]> ∅)) in
  if needs_physics && negb (Nat.eqb (length sdf_bytes) 0)
                   && negb (Nat.eqb (length mat_bytes) 0)
  then <[ "mat_data" := VBytes mat_bytes ]> (<[ "sdf_data" := VBytes sdf_bytes ]> entry)
  else entry.

(** Read-back of one chunk, last locked region: the entry moves from the
    in-flight map to the cache.  (The bytes and [cpu_readback_complete] are
    also stored in the in-flight record, which is erased right after.) *)
Definition worker_readback_finish (origin : Vector3i) (needs_physics : bool)
    (sdf_bytes mat_bytes : PackedByteArray) (s : state) : state :=
  match chunk_gpu_states s !! origin with
  | None => s
  | Some st =>
      set_chunk_gpu_states (delete origin (chunk_gpu_states s))
        (set_sdf_cache
           (<[ KeyVector3i origin := migrated_entry st needs_physics sdf_bytes mat_bytes ]>
              (sdf_cache s)) s)
  end.

Definition worker_readback_one (s : state) (origin : Vector3i) : state :=
  match worker_readback_begin origin s with
  | None => s
  | Some (needs_physics, sdf_tex, mat_tex) =>
      let '(sdf_bytes, mat_bytes) :=
        worker_readback_fetch needs_physics sdf_tex mat_tex s in
      worker_readback_finish origin needs_physics sdf_bytes mat_bytes s
  end.

(** One whole turn of the loop with no other thread in between. *)
Definition readback_worker_iteration (s : state) : state :=
  let '(to_complete, to_readback) := worker_snapshot s in
  let '(s, to_readback) := worker_mark_complete to_complete to_readback s in
  fold_left worker_readback_one to_readback s.

(** *** [get_chunk_gpu_textures] *)

(** Region under [cache_mutex]: the answer when the cache settles it. *)
Definition textures_from_cache (origin : Vector3i) (s : state) : option Dictionary :=
  match sdf_cache s !! KeyVector3i origin with
  | Some cached =>
      if dict_has cached "sdf" && dict_has cached "material"
         && dict_has cached "gpu_complete" && dict_bool cached "gpu_complete"
      then
        match cached !! "sdf", cached !! "material" with
        | Some v1, Some v2 =>
            Some (<[ "has_cpu_data" :=
                       VBool (dict_has cached "sdf_data" && dict_has cached "mat_data") ]>
                    (<[ "ready" := VBool true ]>
                       (<[ "material" := v2 ]> (<[ "sdf" := v1 ]> ∅))))
        | _, _ => None
        end
      else None
  | None => None
  end.

(** Region under [queue_mutex]. *)
Definition textures_from_in_flight (origin : Vector3i) (s : state) : Dictionary :=
  match chunk_gpu_states s !! origin with
  | Some st =>
      if gpu_complete st then
        <[ "has_cpu_data" := VBool (cpu_readback_complete st) ]>
          (<[ "ready" := VBool true ]>
             (<[ "material" := VRID (material_texture st) ]>
                (<[ "sdf" := VRID (sdf_texture st) ]> ∅)))
      else <[ "ready" := VBool false ]> ∅
  | None => <[ "ready" := VBool false ]> ∅
  end.

Definition get_chunk_gpu_textures (origin : Vector3i) (s : state) : Dictionary :=
  match textures_from_cache origin s with
  | Some result => result
  | None => textures_from_in_flight origin s
  end.

(** The [ready] entry of a poll result. *)
Definition ready (result : Dictionary) : bool := dict_bool result "ready".

(** *** [generate_block] *)

(** [String("{0}_{1}_{2}_{3}").format(...)]. *)
Definition cache_key (origin : Vector3i) (block_lod : Z) : CacheKey :=
  KeyString (pretty (v3i_x origin) +:+ "_" +:+ pretty (v3i_y origin) +:+ "_"
             +:+ pretty (v3i_z origin) +:+ "_" +:+ pretty block_lod).

Definition write_gpu_data_to_buffer_bulk (voxel_buffer : VoxelBuffer)
    (sdf_tex mat_tex : RID) (size : Z) (s : state) : VoxelBuffer :=
  match rd s with
  | None => voxel_buffer
  | Some d =>
      let sdf_bytes := texture_get_data sdf_tex d in
      let mat_bytes := texture_get_data mat_tex d in
      let expected_size := wrap32 (wrap32 (size * size * size) * 4) in
      if (Z.of_nat (length sdf_bytes) <? expected_size)
         || (Z.of_nat (length mat_bytes) <? expected_size)
      then voxel_buffer
      else
        decode_voxels size sdf_bytes mat_bytes
          (mkVoxelBuffer (clear_channel float_one_bits (CHANNEL_SDF voxel_buffer))
                         (clear_channel 0%N (CHANNEL_INDICES voxel_buffer)))
  end.

Record VoxelQueryData := mkVoxelQueryData {
  voxel_buffer : VoxelBuffer;
  origin_in_voxels : Vector3i;
  query_lod : Z
}.

(** [Result::max_lod_hint], the only member the function sets. *)
Record Result := mkResult { max_lod_hint : bool }.

Definition generate_block (input : VoxelQueryData) (s : state)
  : Result * VoxelBuffer * state :=
  let out_buffer := voxel_buffer input in
  let '(ok, s) := if gpu_initialized s then (true, s) else initialize_gpu s in
  if negb ok then (mkResult false, out_buffer, s) else
  let origin := origin_in_voxels input in
  let key := cache_key origin (query_lod input) in
  let miss (_ : unit) :=
    if 0 <? query_lod input then
      (mkResult false, out_buffer,
       enqueue_chunk_request origin (query_lod input) (player_position s) s)
    else
      let '(gpu_result, s) := generate_chunk_sdf origin s in
      if dict_has gpu_result "sdf_texture" && dict_has gpu_result "material_texture"
      then
        let sdf_tex := dict_rid gpu_result "sdf_texture" in
        let mat_tex := dict_rid gpu_result "material_texture" in
        let out := write_gpu_data_to_buffer_bulk out_buffer sdf_tex mat_tex
                     (chunk_size s) s in
        let bytes r := match rd s with Some d => texture_get_data r d | None => [] end in
        let cache_entry : Dictionary :=
          <[ "mat_data" := VBytes (bytes mat_tex) ]>
            (<[ "sdf_data" := VBytes (bytes sdf_tex) ]> ∅) in
        (mkResult true, out, set_sdf_cache (<[ key := cache_entry ]> (sdf_cache s)) s)
      else (mkResult false, out_buffer, s) in
  match sdf_cache s !! key with
  | Some cached =>
      if dict_has cached "sdf_data" && dict_has cached "mat_data" then
        (mkResult true,
         decode_voxels (chunk_size s) (dict_bytes cached "sdf_data")
                       (dict_bytes cached "mat_data") out_buffer,
         s)
      else miss tt
  | None => miss tt
  end.

End NativeTerrainGenerator.

(** * NativeVegetationDispatcher *)

Module NativeVegetationDispatcher.

Definition MAX_PLACEMENTS : Z := 4096.
Definition CHUNK_SIZE : Z := 32.
Definition DEFAULT_MAX_CACHE_ENTRIES : Z := 500.

(** Three [float]s, as bit patterns. *)
Record Vector3Bits := mkVector3Bits { bits_x : N; bits_y : N; bits_z : N }.

(** [struct PlacementData], 48 bytes: every member is a 4-byte word. *)
Record PlacementData := mkPlacementData {
  position : Vector3Bits;
  _padding1 : N;
  normal : Vector3Bits;
  _padding2 : N;
  variant_index : N;
  instance_seed : N;
  scale : N;
  rotation_y : N
}.

Definition stride : nat := 48.

(** The dictionary [decode_placements] builds for one record: its six
    entries. *)
Record Placement := mkPlacement {
  placement_position : Vector3Bits;
  placement_normal : Vector3Bits;
  placement_variant_index : N;
  placement_instance_seed : N;
  placement_scale : N;
  placement_rotation_y : N
}.

Abbreviation Array := (list Placement) (only parsing).

(** [memcpy(&pd, data + offset, stride)]. *)
Definition read_PlacementData (data : PackedByteArray) (offset : nat) : PlacementData :=
  let w k := read_u32 data (offset + k) in
  mkPlacementData (mkVector3Bits (w 0%nat) (w 4%nat) (w 8%nat)) (w 12%nat)
                  (mkVector3Bits (w 16%nat) (w 20%nat) (w 24%nat)) (w 28%nat)
                  (w 32%nat) (w 36%nat) (w 40%nat) (w 44%nat).

Definition placement_of (pd : PlacementData) : Placement :=
  mkPlacement (position pd) (normal pd) (variant_index pd) (instance_seed pd)
              (scale pd) (rotation_y pd).

(** The [for] loop of [decode_placements]: [n] records still to read. *)
Fixpoint decode_loop (n : nat) (offset : nat) (data : PackedByteArray) : Array :=
  match n with
  | O => []
  | S n' =>
      if (length data <? offset + stride)%nat then []
      else placement_of (read_PlacementData data offset)
             :: decode_loop n' (offset + stride) data
  end.

Definition decode_placements (buffer_data : PackedByteArray) : Array :=
  if (length buffer_data <? 4)%nat then [] else
  let placement_count := read_u32 buffer_data 0 in
  let placement_count :=
    if (Z.to_N MAX_PLACEMENTS <? placement_count)%N
    then Z.to_N MAX_PLACEMENTS else placement_count in
  decode_loop (N.to_nat placement_count) 4 buffer_data.

(** Modelled from the spec: the encoder is the placement kernel, which is
    not among the sources.  The buffer is the one [generate_placements]
    allocates, [4 + MAX_PLACEMENTS * sizeof(PlacementData)] zero bytes, in
    which the kernel has written the 4-byte record count followed by the
    records at the stride of [PlacementData], each member at the offset
    the declaration of the structure gives it.  More records than the
    capacity do not fit. *)
Definition encode_PlacementData (pd : PlacementData) : PackedByteArray :=
  le32_encode (bits_x (position pd)) ++ le32_encode (bits_y (position pd)) ++
  le32_encode (bits_z (position pd)) ++ le32_encode (_padding1 pd) ++
  le32_encode (bits_x (normal pd)) ++ le32_encode (bits_y (normal pd)) ++
  le32_encode (bits_z (normal pd)) ++ le32_encode (_padding2 pd) ++
  le32_encode (variant_index pd) ++ le32_encode (instance_seed pd) ++
  le32_encode (scale pd) ++ le32_encode (rotation_y pd).

Definition buffer_size : nat := 4 + Z.to_nat MAX_PLACEMENTS * stride.

Definition written_buffer (records : list PlacementData) : PackedByteArray :=
  le32_encode (N.of_nat (length records))
  ++ concat (map encode_PlacementData records)
  ++ repeat Byte.x00 (buffer_size - 4 - length records * stride).





Record ChunkTypePair := mkChunkTypePair { chunk : Vector3i; type : Z }.

Global Instance ChunkTypePair_eq_dec : EqDecision ChunkTypePair.
Proof. solve_decision. Defined.

Global Program Instance ChunkTypePair_countable : Countable ChunkTypePair :=
  inj_countable' (fun p => (chunk p, type p))
                 (fun t => mkChunkTypePair t.1 t.2) _.
Next Obligation. by intros []. Qed.

(** The push constants of the placement kernel that the caller chooses. *)
Record PlacementParams := mkPlacementParams {
  density : real_t;
  grid_spacing : real_t;
  noise_frequency : real_t;
  slope_max : real_t;
  height_min : real_t;
  height_max : real_t;
  world_seed : Z
}.

Record state := mkState {
  rd : option RenderingDevice;
  shader : RID;
  pipeline : RID;
  transform_shader : RID;
  transform_pipeline : RID;
  cached_sampler_linear : RID;
  placement_cache : gmap Vector3i (gmap Z Array);
  buffer_cache : gmap Vector3i (gmap Z N);
  transform_buffer_cache : gmap Vector3i (gmap Z N);
  lru_list : list ChunkTypePair;
  lru_map : gset ChunkTypePair;
  total_placement_time_us : Z;
  last_placement_time_us : Z;
  placement_call_count : Z;
  timing_per_type : gmap Z (Z * Z);
  max_cache_entries : Z;
  gpu_initialized : bool;
  terrain_dispatcher : option (Vector3i -> N);
  host : Host
}.

Definition set_rd (v : option RenderingDevice) (s : state) : state :=
  mkState v (shader s) (pipeline s) (transform_shader s) (transform_pipeline s) (cached_sampler_linear s) (placement_cache s) (buffer_cache s) (transform_buffer_cache s) (lru_list s) (lru_map s) (total_placement_time_us s) (last_placement_time_us s) (placement_call_count s) (timing_per_type s) (max_cache_entries s) (gpu_initialized s) (terrain_dispatcher s) (host s).
Definition set_shader (v : RID) (s : state) : state :=
  mkState (rd s) v (pipeline s) (transform_shader s) (transform_pipeline s) (cached_sampler_linear s) (placement_cache s) (buffer_cache s) (transform_buffer_cache s) (lru_list s) (lru_map s) (total_placement_time_us s) (last_placement_time_us s) (placement_call_count s) (timing_per_type s) (max_cache_entries s) (gpu_initialized s) (terrain_dispatcher s) (host s).
Definition set_pipeline (v : RID) (s : state) : state :=
  mkState (rd s) (shader s) v (transform_shader s) (transform_pipeline s) (cached_sampler_linear s) (placement_cache s) (buffer_cache s) (transform_buffer_cache s) (lru_list s) (lru_map s) (total_placement_time_us s) (last_placement_time_us s) (placement_call_count s) (timing_per_type s) (max_cache_entries s) (gpu_initialized s) (terrain_dispatcher s) (host s).
Definition set_transform_shader (v : RID) (s : state) : state :=
  mkState (rd s) (shader s) (pipeline s) v (transform_pipeline s) (cached_sampler_linear s) (placement_cache s) (buffer_cache s) (transform_buffer_cache s) (lru_list s) (lru_map s) (total_placement_time_us s) (last_placement_time_us s) (placement_call_count s) (timing_per_type s) (max_cache_entries s) (gpu_initialized s) (terrain_dispatcher s) (host s).
Definition set_transform_pipeline (v : RID) (s : state) : state :=
  mkState (rd s) (shader s) (pipeline s) (transform_shader s) v (cached_sampler_linear s) (placement_cache s) (buffer_cache s) (transform_buffer_cache s) (lru_list s) (lru_map s) (total_placement_time_us s) (last_placement_time_us s) (placement_call_count s) (timing_per_type s) (max_cache_entries s) (gpu_initialized s) (terrain_dispatcher s) (host s).
Definition set_cached_sampler_linear (v : RID) (s : state) : state :=
  mkState (rd s) (shader s) (pipeline s) (transform_shader s) (transform_pipeline s) v (placement_cache s) (buffer_cache s) (transform_buffer_cache s) (lru_list s) (lru_map s) (total_placement_time_us s) (last_placement_time_us s) (placement_call_count s) (timing_per_type s) (max_cache_entries s) (gpu_initialized s) (terrain_dispatcher s) (host s).
Definition set_placement_cache (v : gmap Vector3i (gmap Z Array)) (s : state) : state :=
  mkState (rd s) (shader s) (pipeline s) (transform_shader s) (transform_pipeline s) (cached_sampler_linear s) v (buffer_cache s) (transform_buffer_cache s) (lru_list s) (lru_map s) (total_placement_time_us s) (last_placement_time_us s) (placement_call_count s) (timing_per_type s) (max_cache_entries s) (gpu_initialized s) (terrain_dispatcher s) (host s).
Definition set_buffer_cache (v : gmap Vector3i (gmap Z N)) (s : state) : state :=
  mkState (rd s) (shader s) (pipeline s) (transform_shader s) (transform_pipeline s) (cached_sampler_linear s) (placement_cache s) v (transform_buffer_cache s) (lru_list s) (lru_map s) (total_placement_time_us s) (last_placement_time_us s) (placement_call_count s) (timing_per_type s) (max_cache_entries s) (gpu_initialized s) (terrain_dispatcher s) (host s).
Definition set_transform_buffer_cache (v : gmap Vector3i (gmap Z N)) (s : state) : state :=
  mkState (rd s) (shader s) (pipeline s) (transform_shader s) (transform_pipeline s) (cached_sampler_linear s) (placement_cache s) (buffer_cache s) v (lru_list s) (lru_map s) (total_placement_time_us s) (last_placement_time_us s) (placement_call_count s) (timing_per_type s) (max_cache_entries s) (gpu_initialized s) (terrain_dispatcher s) (host s).
Definition set_lru_list (v : list ChunkTypePair) (s : state) : state :=
  mkState (rd s) (shader s) (pipeline s) (transform_shader s) (transform_pipeline s) (cached_sampler_linear s) (placement_cache s) (buffer_cache s) (transform_buffer_cache s) v (lru_map s) (total_placement_time_us s) (last_placement_time_us s) (placement_call_count s) (timing_per_type s) (max_cache_entries s) (gpu_initialized s) (terrain_dispatcher s) (host s).
Definition set_lru_map (v : gset ChunkTypePair) (s : state) : state :=
  mkState (rd s) (shader s) (pipeline s) (transform_shader s) (transform_pipeline s) (cached_sampler_linear s) (placement_cache s) (buffer_cache s) (transform_buffer_cache s) (lru_list s) v (total_placement_time_us s) (last_placement_time_us s) (placement_call_count s) (timing_per_type s) (max_cache_entries s) (gpu_initialized s) (terrain_dispatcher s) (host s).
Definition set_total_placement_time_us (v : Z) (s : state) : state :=
  mkState (rd s) (shader s) (pipeline s) (transform_shader s) (transform_pipeline s) (cached_sampler_linear s) (placement_cache s) (buffer_cache s) (transform_buffer_cache s) (lru_list s) (lru_map s) v (last_placement_time_us s) (placement_call_count s) (timing_per_type s) (max_cache_entries s) (gpu_initialized s) (terrain_dispatcher s) (host s).
Definition set_last_placement_time_us (v : Z) (s : state) : state :=
  mkState (rd s) (shader s) (pipeline s) (transform_shader s) (transform_pipeline s) (cached_sampler_linear s) (placement_cache s) (buffer_cache s) (transform_buffer_cache s) (lru_list s) (lru_map s) (total_placement_time_us s) v (placement_call_count s) (timing_per_type s) (max_cache_entries s) (gpu_initialized s) (terrain_dispatcher s) (host s).
Definition set_placement_call_count (v : Z) (s : state) : state :=
  mkState (rd s) (shader s) (pipeline s) (transform_shader s) (transform_pipeline s) (cached_sampler_linear s) (placement_cache s) (buffer_cache s) (transform_buffer_cache s) (lru_list s) (lru_map s) (total_placement_time_us s) (last_placement_time_us s) v (timing_per_type s) (max_cache_entries s) (gpu_initialized s) (terrain_dispatcher s) (host s).
Definition set_timing_per_type (v : gmap Z (Z * Z)) (s : state) : state :=
  mkState (rd s) (shader s) (pipeline s) (transform_shader s) (transform_pipeline s) (cached_sampler_linear s) (placement_cache s) (buffer_cache s) (transform_buffer_cache s) (lru_list s) (lru_map s) (total_placement_time_us s) (last_placement_time_us s) (placement_call_count s) v (max_cache_entries s) (gpu_initialized s) (terrain_dispatcher s) (host s).
Definition set_max_cache_entries (v : Z) (s : state) : state :=
  mkState (rd s) (shader s) (pipeline s) (transform_shader s) (transform_pipeline s) (cached_sampler_linear s) (placement_cache s) (buffer_cache s) (transform_buffer_cache s) (lru_list s) (lru_map s) (total_placement_time_us s) (last_placement_time_us s) (placement_call_count s) (timing_per_type s) v (gpu_initialized s) (terrain_dispatcher s) (host s).
Definition set_gpu_initialized (v : bool) (s : state) : state :=
  mkState (rd s) (shader s) (pipeline s) (transform_shader s) (transform_pipeline s) (cached_sampler_linear s) (placement_cache s) (buffer_cache s) (transform_buffer_cache s) (lru_list s) (lru_map s) (total_placement_time_us s) (last_placement_time_us s) (placement_call_count s) (timing_per_type s) (max_cache_entries s) v (terrain_dispatcher s) (host s).
Definition set_terrain_dispatcher (v : option (Vector3i -> N)) (s : state) : state :=
  mkState (rd s) (shader s) (pipeline s) (transform_shader s) (transform_pipeline s) (cached_sampler_linear s) (placement_cache s) (buffer_cache s) (transform_buffer_cache s) (lru_list s) (lru_map s) (total_placement_time_us s) (last_placement_time_us s) (placement_call_count s) (timing_per_type s) (max_cache_entries s) (gpu_initialized s) v (host s).
Definition set_host (v : Host) (s : state) : state :=
  mkState (rd s) (shader s) (pipeline s) (transform_shader s) (transform_pipeline s) (cached_sampler_linear s) (placement_cache s) (buffer_cache s) (transform_buffer_cache s) (lru_list s) (lru_map s) (total_placement_time_us s) (last_placement_time_us s) (placement_call_count s) (timing_per_type s) (max_cache_entries s) (gpu_initialized s) (terrain_dispatcher s) v.

(** The constructor. *)
Definition construct (h : Host) : state :=
  mkState (if host_rendering_server h then host_local_device h else None)
          RID_null RID_null RID_null RID_null RID_null
          ∅ ∅ ∅ [] ∅ 0 0 0 ∅ DEFAULT_MAX_CACHE_ENTRIES false None h.

Definition initialize_gpu (s : state) : bool * state :=
  if gpu_initialized s then (true, s) else
  match rd s with
  | None => (false, s)
  | Some d =>
      if negb (host_placement_kernel (host s)) then (false, s) else
      let '(sh, d) := rd_create d in
      let s := set_shader sh s in
      if negb (is_valid sh) then (false, set_rd (Some d) s) else
      let '(pl, d) := rd_create d in
      let s := set_pipeline pl s in
      if negb (is_valid pl)
      then (false, set_shader RID_null (set_rd (Some (free_rid sh d)) s)) else
      let '(sampler, d) := rd_create d in
      let s := set_cached_sampler_linear sampler s in
      let '(d, s) :=
        if host_transform_kernel (host s) then
          let '(tsh, d) := rd_create d in
          let s := set_transform_shader tsh s in
          if is_valid tsh then
            let '(tpl, d) := rd_create d in (d, set_transform_pipeline tpl s)
          else (d, s)
        else (d, s) in
      (true, set_gpu_initialized true (set_rd (Some d) s))
  end.

(** *** The LRU index

    [lru_list] is the recency list, most recent first; [lru_map] holds, for
    every key it contains, the iterator to the key's node of the list. *)

(** [lru_list.erase(it)] for the iterator stored under [key]. *)
Fixpoint list_erase (key : ChunkTypePair) (l : list ChunkTypePair)
  : list ChunkTypePair :=
  match l with
  | [] => []
  | k :: l' => if decide (k = key) then l' else k :: list_erase key l'
  end.

Definition update_lru_access (chunk_origin : Vector3i) (veg_type : Z) (s : state)
  : state :=
  let key := mkChunkTypePair chunk_origin veg_type in
  let l := if decide (key ∈ lru_map s)
           then list_erase key (lru_list s) else lru_list s in
  set_lru_map ({[ key ]} ∪ lru_map s) (set_lru_list (key :: l) s).

(** [cache[chunk][type] = value]. *)
Definition nested_insert {V} (c : Vector3i) (t : Z) (value : V)
    (cache : gmap Vector3i (gmap Z V)) : gmap Vector3i (gmap Z V) :=
  <[ c := <[ t := value ]> (default ∅ (cache !! c)) ]> cache.

Definition nested_lookup {V} (c : Vector3i) (t : Z)
    (cache : gmap Vector3i (gmap Z V)) : option V :=
  match cache !! c with
  | Some inner => inner !! t
  | None => None
  end.

(** Erasing [type] from the inner map of [chunk], and the inner map with
    it once it is empty. *)
Definition nested_erase {V} (c : Vector3i) (t : Z)
    (cache : gmap Vector3i (gmap Z V)) : gmap Vector3i (gmap Z V) :=
  let inner := delete t (default ∅ (cache !! c)) in
  if decide (inner = ∅) then delete c cache else <[ c := inner ]> cache.

(** The two blocks of [evict_lru_entry] that release a buffer: nothing
    happens unless the key is found. *)
Definition release_buffer (key : ChunkTypePair)
    (cache : gmap Vector3i (gmap Z N)) (d : option RenderingDevice)
  : gmap Vector3i (gmap Z N) * option RenderingDevice :=
  match nested_lookup (chunk key) (type key) cache with
  | None => (cache, d)
  | Some buffer =>
      (nested_erase (chunk key) (type key) cache,
       if is_valid buffer then free_rid buffer <$> d else d)
  end.

Definition evict_lru_entry (s : state) : state :=
  match last (lru_list s) with
  | None => s
  | Some oldest =>
      let s := set_lru_map (lru_map s ∖ {[ oldest ]})
                 (set_lru_list (removelast (lru_list s)) s) in
      let s := set_placement_cache
                 (nested_erase (chunk oldest) (type oldest) (placement_cache s)) s in
      let '(buffers, d) := release_buffer oldest (buffer_cache s) (rd s) in
      let '(transforms, d) := release_buffer oldest (transform_buffer_cache s) d in
      set_rd d (set_transform_buffer_cache transforms (set_buffer_cache buffers s))
  end.

(** The sum of the sizes of the inner maps. *)
Definition cache_entries {V} (cache : gmap Vector3i (gmap Z V)) : Z :=
  map_fold (fun _ inner acc => Z.of_nat (size inner) + acc) 0 cache.

Definition get_cache_size (s : state) : Z := cache_entries (placement_cache s).

(** [while (cache_size > max_cache_entries) { evict_lru_entry(); cache_size--; }] *)
Definition evict_until_within (cache_size : Z) (s : state) : state :=
  Nat.iter (Z.to_nat (cache_size - max_cache_entries s)) evict_lru_entry s.

(** *** [generate_placements] *)

Definition record_timing (veg_type elapsed_us : Z) (s : state) : state :=
  let '(total, count) := default (0, 0) (timing_per_type s !! veg_type) in
  set_timing_per_type
    (<[ veg_type := (total + elapsed_us, wrap32 (count + 1)) ]> (timing_per_type s))
    (set_placement_call_count (wrap32 (placement_call_count s + 1))
       (set_total_placement_time_us (u64 (total_placement_time_us s + elapsed_us))
          (set_last_placement_time_us elapsed_us s))).

(** The region of [generate_placements] under [cache_mutex] that follows
    the dispatch.  First the insertion: the buffer is cached, the
    placements are read back and decoded (or an empty array stands for
    them in GPU-only mode) and the key becomes the most recent one. *)
Definition insert_placements (chunk_origin : Vector3i) (veg_type : Z)
    (storage_buffer : RID) (cpu_fallback : bool) (s : state) : Array * state :=
  let s := set_buffer_cache
             (nested_insert chunk_origin veg_type storage_buffer (buffer_cache s)) s in
  let placements :=
    match cpu_fallback, rd s with
    | true, Some d => decode_placements (buffer_get_data storage_buffer d)
    | _, _ => []
    end in
  let s := set_placement_cache
             (nested_insert chunk_origin veg_type placements (placement_cache s)) s in
  (placements, update_lru_access chunk_origin veg_type s).

(** Then the cache is brought back within [max_cache_entries]. *)
Definition store_placements (chunk_origin : Vector3i) (veg_type : Z)
    (storage_buffer : RID) (cpu_fallback : bool) (s : state) : Array * state :=
  let '(placements, s) :=
    insert_placements chunk_origin veg_type storage_buffer cpu_fallback s in
  (placements, evict_until_within (get_cache_size s) s).

(** The part of [generate_placements] after the cache lookup missed. *)
Definition generate_placements_miss (chunk_origin : Vector3i) (veg_type : Z)
    (params : PlacementParams) (biome_map_texture : RID) (cpu_fallback : bool)
    (s : state) : Array * state :=
  if negb (is_valid biome_map_texture) then ([], s) else
  let terrain_sdf_texture :=
    match terrain_dispatcher s with
    | Some get_sdf_texture_for_chunk => get_sdf_texture_for_chunk chunk_origin
    | None => RID_null
    end in
  if negb (is_valid terrain_sdf_texture) then ([], s) else
  match rd s with
  | None => ([], s)
  | Some d =>
      let '(storage_buffer, d) := rd_create d in
      let '(uniform_set, d) :=
        uniform_set_create
          [cached_sampler_linear s; terrain_sdf_texture; biome_map_texture;
           storage_buffer] d in
      if negb (is_valid uniform_set)
      then ([], set_rd (Some (free_rid storage_buffer d)) s) else
      let start_time := host_ticks_usec (host s) in
      let d := compute_list_dispatch (DispatchPlacement chunk_origin veg_type) d in
      let s := set_host (elapse (host_sync_usec (host s)) (host s)) s in
      let end_time := host_ticks_usec (host s) in
      let s := record_timing veg_type (u64 (end_time - start_time)) s in
      let '(placements, s) :=
        store_placements chunk_origin veg_type storage_buffer cpu_fallback
                         (set_rd (Some d) s) in
      (placements, set_rd (free_rid uniform_set <$> rd s) s)
  end.

Definition generate_placements (chunk_origin : Vector3i) (veg_type : Z)
    (params : PlacementParams) (biome_map_texture : RID) (cpu_fallback : bool)
    (s : state) : Array * state :=
  let '(ok, s) := if gpu_initialized s then (true, s) else initialize_gpu s in
  if negb ok then ([], s) else
  match nested_lookup chunk_origin veg_type (placement_cache s) with
  | Some cached => (cached, update_lru_access chunk_origin veg_type s)
  | None =>
      generate_placements_miss chunk_origin veg_type params biome_map_texture
                               cpu_fallback s
  end.

(** *** Accessors *)

Definition is_chunk_ready (chunk_origin : Vector3i) (veg_type : Z) (s : state) : bool :=
  bool_decide (is_Some (nested_lookup chunk_origin veg_type (placement_cache s))).

Definition is_gpu_ready (chunk_origin : Vector3i) (veg_type : Z) (s : state) : bool :=
  match nested_lookup chunk_origin veg_type (buffer_cache s) with
  | Some buffer =>
      is_valid buffer &&
      match nested_lookup chunk_origin veg_type (transform_buffer_cache s) with
      | Some transform => is_valid transform
      | None => false
      end
  | None => false
  end.

Definition get_placement_buffer_rid (chunk_origin : Vector3i) (veg_type : Z)
    (s : state) : RID :=
  default RID_null (nested_lookup chunk_origin veg_type (buffer_cache s)).

Definition get_placement_count (chunk_origin : Vector3i) (veg_type : Z)
    (s : state) : Z :=
  let buffer := get_placement_buffer_rid chunk_origin veg_type s in
  if negb (is_valid buffer) then 0 else
  match rd s with
  | None => 0
  | Some d =>
      let count_data := buffer_get_data_range buffer 0 4 d in
      if (length count_data <? 4)%nat then 0
      else wrap32 (Z.of_N (read_u32 count_data 0))
  end.

(** The transform buffer is built on first request, by the transform
    kernel when its pipeline exists and on the CPU otherwise; either way
    the model only tracks the buffer, not the matrices in it. *)
Definition get_transform_buffer_rid (chunk_origin : Vector3i) (veg_type : Z)
    (s : state) : RID * state :=
  match nested_lookup chunk_origin veg_type (transform_buffer_cache s) with
  | Some buffer => (buffer, s)
  | None =>
    let placement_buffer := get_placement_buffer_rid chunk_origin veg_type s in
    if negb (is_valid placement_buffer) then (RID_null, s) else
    match rd s with
    | None => (RID_null, s)
    | Some d =>
      let count_data := buffer_get_data_range placement_buffer 0 4 d in
      if (length count_data <? 4)%nat then (RID_null, s) else
      let placement_count := read_u32 count_data 0 in
      if (placement_count =? 0)%N || (Z.to_N MAX_PLACEMENTS <? placement_count)%N
      then (RID_null, s) else
      let store buffer d :=
        (buffer,
         set_transform_buffer_cache
           (nested_insert chunk_origin veg_type buffer (transform_buffer_cache s))
           (set_rd (Some d) s)) in
      if is_valid (transform_pipeline s) then
        let '(transform_buffer, d) := rd_create d in
        if negb (is_valid transform_buffer) then (RID_null, set_rd (Some d) s) else
        let '(uniform_set, d) :=
          uniform_set_create [placement_buffer; transform_buffer] d in
        if negb (is_valid uniform_set)
        then (RID_null, set_rd (Some (free_rid transform_buffer d)) s) else
        store transform_buffer
              (free_rid uniform_set
                 (compute_list_dispatch (DispatchTransform placement_count) d))
      else
        let placement_data_size := (N.to_nat placement_count * stride)%nat in
        let placement_data :=
          buffer_get_data_range placement_buffer 4 placement_data_size d in
        if (length placement_data <? placement_data_size)%nat then (RID_null, s) else
        let '(transform_buffer, d) := rd_create d in
        if negb (is_valid transform_buffer) then (RID_null, set_rd (Some d) s)
        else store transform_buffer d
    end
  end.

End NativeVegetationDispatcher.

(** * Fixtures

    A host on which everything succeeds, used to run the two classes. *)

Module Scenario.

Definition sample_device : RenderingDevice :=
  mkRenderingDevice 0 ∅ [] []
    (fun _ => [Byte.x02; Byte.x00; Byte.x00; Byte.x00]).

Definition sample_host : Host :=
  mkHost true (Some sample_device) true true true true 1000 250.

Definition terrain : NativeTerrainGenerator.state :=
  NativeTerrainGenerator.construct sample_host.

Definition empty_buffer : VoxelBuffer :=
  mkVoxelBuffer (mkChannel 0 ∅) (mkChannel 0 ∅).





(** Hosts whose driver refuses one creation call: the biome map texture,
    the material texture of the first chunk, the uniform set of the first
    chunk. *)
Definition refusing_device (outcomes : list bool) : RenderingDevice :=
  mkRenderingDevice 0 ∅ outcomes [] (rd_contents sample_device).

Definition refusing_host (outcomes : list bool) : Host :=
  mkHost true (Some (refusing_device outcomes)) true true true true 1000 250.

Definition no_biome_map : list bool := [true; true; true; true; false].
Definition no_material_texture : list bool :=
  [true; true; true; true; true; true; true; false].
Definition no_uniform_set : list bool :=
  [true; true; true; true; true; true; true; true; true; false].

(** Two placement records. *)
Definition sample_records : list NativeVegetationDispatcher.PlacementData :=
  [ NativeVegetationDispatcher.mkPlacementData
      (NativeVegetationDispatcher.mkVector3Bits 1065353216 3212836864 0) 0
      (NativeVegetationDispatcher.mkVector3Bits 0 1065353216 0) 0
      3 4294967295 1069547520 1078530011;
    NativeVegetationDispatcher.mkPlacementData
      (NativeVegetationDispatcher.mkVector3Bits 1 2 3) 0
      (NativeVegetationDispatcher.mkVector3Bits 2147483648 5 6) 0
      7 8 2143289344 4286578688 ].

(** A vegetation dispatcher that keeps two entries, with a terrain
    provider that has an SDF image for every chunk, and one without a
    provider.  The driver hands back two encoded records for any buffer. *)
Definition placement_device : RenderingDevice :=
  mkRenderingDevice 0 ∅ [] []
    (fun _ => NativeVegetationDispatcher.written_buffer sample_records).

Definition placement_host : Host :=
  mkHost true (Some placement_device) true true true true 1000 250.

Definition vegetation : NativeVegetationDispatcher.state :=
  NativeVegetationDispatcher.set_max_cache_entries 2
    (NativeVegetationDispatcher.set_terrain_dispatcher (Some (fun _ => 77%N))
       (NativeVegetationDispatcher.construct placement_host)).

Definition vegetation_without_terrain : NativeVegetationDispatcher.state :=
  NativeVegetationDispatcher.construct placement_host.

(** One whose provider has no SDF image for any chunk, and one whose
    driver refuses the uniform set of the first placement dispatch. *)
Definition vegetation_without_sdf : NativeVegetationDispatcher.state :=
  NativeVegetationDispatcher.set_terrain_dispatcher (Some (fun _ => RID_null))
    (NativeVegetationDispatcher.construct placement_host).

Definition vegetation_no_uniform_set : NativeVegetationDispatcher.state :=
  NativeVegetationDispatcher.set_max_cache_entries 2
    (NativeVegetationDispatcher.set_terrain_dispatcher (Some (fun _ => 77%N))
       (NativeVegetationDispatcher.construct
          (refusing_host [true; true; true; true; true; true; false]))).

Definition sample_params : NativeVegetationDispatcher.PlacementParams :=
  NativeVegetationDispatcher.mkPlacementParams
    (real_of_int 1) (real_of_int 2) (real_of_int 1) (real_of_int 1)
    (real_of_int (-100)) (real_of_int 500) 42.

Definition chunk_A : Vector3i := mkVector3i 0 0 0.
Definition chunk_B : Vector3i := mkVector3i 32 0 0.
Definition chunk_C : Vector3i := mkVector3i 64 0 0.

End Scenario.

(** * Properties of the placement buffer codec *)

Module PlacementCodec.
Import NativeVegetationDispatcher.












(** The count prefix is clamped: a prefix above the capacity makes the
    decoder read [MAX_PLACEMENTS] records at most. *)
Lemma decode_placements_length buffer_data :
  (length (decode_placements buffer_data) <= Z.to_nat MAX_PLACEMENTS)%nat.
Proof.
  unfold decode_placements.
  destruct (length buffer_data <? 4)%nat; [cbn [length]; lia|].
  set (n := N.to_nat _).
  assert (Hn : (n <= Z.to_nat MAX_PLACEMENTS)%nat).
  { subst n. destruct (N.ltb_spec (Z.to_N MAX_PLACEMENTS) (read_u32 buffer_data 0)); lia. }
  revert Hn. generalize (Z.to_nat MAX_PLACEMENTS). generalize 4%nat.
  induction n as [|n IH]; intros off m Hm; cbn [decode_loop length]; [lia|].
  destruct (length buffer_data <? off + stride)%nat; cbn [length]; [lia|].
  destruct m as [|m]; [lia|]. specialize (IH (off + stride)%nat m). lia.
Qed.

End PlacementCodec.

(** * Properties of the terrain scheduler *)

Module TerrainScheduler.
Import NativeTerrainGenerator.

(** ** Observer position and request priority *)

(** C10.  When the [player_position] argument of [enqueue_chunk_request]
    compares equal to [(0, 0, 0)] the stored observer position is kept and
    the priority of the new request is the distance from the chunk centre
    to that stored position, so that a caller standing at the world origin
    cannot move the observer there; any argument that compares different
    replaces the stored position before the priority is computed. *)
Theorem enqueue_chunk_request_observer origin new_lod player_pos s :
  (Vector3_ne player_pos Vector3_zero = false ->
   player_position (enqueue_chunk_request origin new_lod player_pos s)
   = player_position s /\
   chunk_request_queue (enqueue_chunk_request origin new_lod player_pos s)
   = pq_push (mkChunkRequest origin new_lod
                (distance_to (chunk_center origin (chunk_size s)) (player_position s))
                (host_ticks_usec (host s)))
             (chunk_request_queue s))
  /\
  (Vector3_ne player_pos Vector3_zero = true ->
   player_position (enqueue_chunk_request origin new_lod player_pos s) = player_pos /\
   chunk_request_queue (enqueue_chunk_request origin new_lod player_pos s)
   = pq_push (mkChunkRequest origin new_lod
                (distance_to (chunk_center origin (chunk_size s)) player_pos)
                (host_ticks_usec (host s)))
             (chunk_request_queue s)).
Proof.
  unfold enqueue_chunk_request. split; intros Hne; rewrite Hne; split; reflexivity.
Qed.

(** The vector [(0, 0, 0)] itself is such an argument, and so is the one
    with negative zeros. *)
Lemma Vector3_zero_not_ne : Vector3_ne Vector3_zero Vector3_zero = false.
Proof. reflexivity. Qed.

Lemma Vector3_negative_zero_not_ne :
  Vector3_ne (mkVector3 (S754_zero true) (S754_zero true) (S754_zero true))
             Vector3_zero = false.
Proof. reflexivity. Qed.

(** ** The priority queue *)








Lemma pq_extract_nonempty x q : exists t rest, pq_extract (x :: q) = Some (t, rest).
Proof.
  cbn [pq_extract]. destruct (pq_extract q) as [[y rest]|]; [|by eauto].
  destruct (ChunkRequest_lt x y); eauto.
Qed.

Lemma pq_extract_split q t rest :
  pq_extract q = Some (t, rest) ->
  exists q1 q2, q = q1 ++ t :: q2 /\ rest = q1 ++ q2.
Proof.
  revert t rest. induction q as [|x q IH]; intros t rest; cbn [pq_extract]; [done|].
  destruct (pq_extract q) as [[y rest']|] eqn:E.
  - destruct (IH y rest' eq_refl) as (q1 & q2 & -> & ->).
    destruct (ChunkRequest_lt x y); intros [= <- <-].
    + by exists (x :: q1), q2.
    + by exists [], (q1 ++ y :: q2).
  - intros [= <- <-]. destruct q; [by exists [], []|].
    destruct (pq_extract_nonempty c q) as (? & ? & ?). congruence.
Qed.

Lemma pq_extract_length q t rest :
  pq_extract q = Some (t, rest) -> length q = S (length rest).
Proof.
  intros H. destruct (pq_extract_split q t rest H) as (q1 & q2 & -> & ->).
  rewrite !length_app. cbn. lia.
Qed.









(** ** The frame budget *)

(** What a dispatch leaves alone. *)
Definition bookkeeping_eq (s s' : state) : Prop :=
  sdf_cache s' = sdf_cache s /\
  chunk_request_queue s' = chunk_request_queue s /\
  frame_gpu_budget_us s' = frame_gpu_budget_us s /\
  current_frame_gpu_time_us s' = current_frame_gpu_time_us s /\
  chunks_dispatched_this_frame s' = chunks_dispatched_this_frame s /\
  total_gpu_time_us s' = total_gpu_time_us s /\
  total_chunks_generated s' = total_chunks_generated s /\
  player_position s' = player_position s /\
  chunk_size s' = chunk_size s /\
  gpu_initialized s' = gpu_initialized s /\
  sdf_pipeline s' = sdf_pipeline s /\
  host s' = host s.

Lemma generate_biome_map_if_needed_frame s :
  bookkeeping_eq s (generate_biome_map_if_needed s) /\
  chunk_gpu_states (generate_biome_map_if_needed s) = chunk_gpu_states s.
Proof.
  unfold generate_biome_map_if_needed, bookkeeping_eq.
  repeat case_match; cbn; tauto.
Qed.

Lemma generate_chunk_sdf_frame o s :
  bookkeeping_eq s (generate_chunk_sdf o s).2 /\
  (forall o', o' <> o ->
     chunk_gpu_states (generate_chunk_sdf o s).2 !! o' = chunk_gpu_states s !! o').
Proof.
  destruct (generate_biome_map_if_needed_frame s) as [Hb Hs].
  unfold generate_chunk_sdf.
  set (s1 := generate_biome_map_if_needed s) in *. clearbody s1.
  unfold bookkeeping_eq in *. unfold get_or_create_sampler.
  repeat case_match; simplify_eq; cbn; rewrite ?Hs; try (split; [tauto|done]).
  all: split; [tauto|]. all: intros o' Ho'; by rewrite lookup_insert_ne.
Qed.



Lemma u64_nonneg z : 0 <= u64 z.
Proof. unfold u64. apply Z.mod_pos_bound. lia. Qed.

Lemma dispatch_chunk_async_frame o l s :
  bookkeeping_eq s (dispatch_chunk_async o l s) /\
  (forall o', o' <> o ->
     chunk_gpu_states (dispatch_chunk_async o l s) !! o' = chunk_gpu_states s !! o').
Proof.
  destruct (generate_chunk_sdf_frame o s) as [Hb Hs].
  unfold dispatch_chunk_async, dispatch_set_flags.
  set (s1 := (generate_chunk_sdf o s).2) in *. clearbody s1.
  unfold bookkeeping_eq in *.
  case_match; cbn; (split; [tauto|]); [|done].
  intros o' Ho'. rewrite lookup_insert_ne by done. by apply Hs.
Qed.





Lemma fold_measured_time_frame origin s :
  let s' := fold_measured_time origin s in
  sdf_cache s' = sdf_cache s /\
  chunk_gpu_states s' = chunk_gpu_states s /\
  chunk_request_queue s' = chunk_request_queue s /\
  frame_gpu_budget_us s' = frame_gpu_budget_us s /\
  chunks_dispatched_this_frame s' = chunks_dispatched_this_frame s /\
  total_chunks_generated s' = total_chunks_generated s /\
  (0 <= current_frame_gpu_time_us s -> 0 <= current_frame_gpu_time_us s') /\
  (poll_gpu_completion origin s = false -> s' = s).
Proof.
  unfold fold_measured_time. repeat case_match; cbn; split_and!; try done.
  intros _. apply u64_nonneg.
Qed.

Lemma fold_measured_times_frame origins : forall s,
  let s' := fold_left (fun s origin => fold_measured_time origin s) origins s in
  sdf_cache s' = sdf_cache s /\
  chunk_gpu_states s' = chunk_gpu_states s /\
  chunk_request_queue s' = chunk_request_queue s /\
  frame_gpu_budget_us s' = frame_gpu_budget_us s /\
  chunks_dispatched_this_frame s' = chunks_dispatched_this_frame s /\
  total_chunks_generated s' = total_chunks_generated s /\
  (0 <= current_frame_gpu_time_us s -> 0 <= current_frame_gpu_time_us s') /\
  ((forall o, poll_gpu_completion o s = false) -> s' = s).
Proof.
  induction origins as [|o origins IH]; intros s; cbn [fold_left]; [done|].
  destruct (fold_measured_time_frame o s) as (F1 & F2 & F3 & F4 & F5 & F6 & F7 & F8).
  destruct (IH (fold_measured_time o s)) as (G1 & G2 & G3 & G4 & G5 & G6 & G7 & G8).
  cbn zeta in *. split_and!; try congruence.
  - auto.
  - intros Hall. rewrite F8 in * by done. by apply G8.
Qed.




End TerrainScheduler.

(** * Properties of the terrain cache *)

Module TerrainCache.
Import NativeTerrainGenerator.
Import TerrainScheduler.

(** ** The synchronous path of [generate_block] *)

(** Every atomic action on the generator: the public methods, and the
    locked regions of [dispatch_chunk_async] and of the background thread
    taken one at a time, with whatever work lists and read-back bytes the
    thread may hold. *)
Inductive step : state -> state -> Prop :=
| step_generate_block input s : step s (generate_block input s).2
| step_enqueue_chunk_request origin new_lod player_pos s :
    step s (enqueue_chunk_request origin new_lod player_pos s)
| step_process_chunk_queue s : step s (process_chunk_queue s)
| step_set_player_position position s : step s (set_player_position position s)
| step_generate_chunk_sdf origin s : step s (generate_chunk_sdf origin s).2
| step_dispatch_set_flags origin new_lod s : step s (dispatch_set_flags origin new_lod s)
| step_worker_mark_complete to_complete to_readback s :
    step s (worker_mark_complete to_complete to_readback s).1
| step_worker_readback_finish origin needs_physics sdf_bytes mat_bytes s :
    step s (worker_readback_finish origin needs_physics sdf_bytes mat_bytes s)
| step_elapse dt s : step s (set_host (elapse dt (host s)) s).

Definition reachable (h : Host) (s : state) : Prop := rtc step (construct h) s.

(** All the cache ever holds: entries of the background thread, stored
    under [Vector3i] keys, none of which has a ["sdf_texture"] member. *)
Definition cache_from_worker (s : state) : Prop :=
  forall k d, sdf_cache s !! k = Some d ->
    (exists o, k = KeyVector3i o) /\ d !! "sdf_texture" = None.

Lemma initialize_gpu_frame s :
  sdf_cache (initialize_gpu s).2 = sdf_cache s /\
  chunk_gpu_states (initialize_gpu s).2 = chunk_gpu_states s /\
  chunk_request_queue (initialize_gpu s).2 = chunk_request_queue s /\
  ((initialize_gpu s).1 = true -> gpu_initialized (initialize_gpu s).2 = true).
Proof.
  unfold initialize_gpu, compile_shader. repeat case_match; simplify_eq; cbn; done.
Qed.

Lemma sdf_result_no_sdf_texture a b : dict_has (sdf_result a b) "sdf_texture" = false.
Proof. reflexivity. Qed.

Lemma migrated_entry_no_sdf_texture st np b1 b2 :
  migrated_entry st np b1 b2 !! "sdf_texture" = None.
Proof. unfold migrated_entry. by case_match. Qed.

(** What [generate_chunk_sdf] can return. *)
Lemma generate_chunk_sdf_cases origin s :
  (generate_chunk_sdf origin s).1 = ∅ \/
  sdf_cache s !! KeyVector3i origin = Some (generate_chunk_sdf origin s).1 \/
  exists sdf_tex mat_tex,
    (generate_chunk_sdf origin s).1 = sdf_result sdf_tex mat_tex /\
    exists st,
      chunk_gpu_states (generate_chunk_sdf origin s).2 !! origin = Some st /\
      sdf_texture st = sdf_tex /\ material_texture st = mat_tex /\
      gpu_complete st = false /\ physics_needed st = false /\ lod st = 0.
Proof.
  destruct (generate_biome_map_if_needed_frame s) as [(Hb & _) _].
  destruct (generate_chunk_sdf origin s) as [r s'] eqn:E.
  unfold generate_chunk_sdf in E.
  set (s1 := generate_biome_map_if_needed s) in *. clearbody s1.
  unfold get_or_create_sampler in E.
  repeat case_match; simplify_eq; cbn; auto.
  - right; left. congruence.
  - right; right. do 2 eexists. split; [done|].
    eexists. rewrite lookup_insert_eq. done.
  - right; right. do 2 eexists. split; [done|].
    eexists. rewrite lookup_insert_eq. done.
Qed.

Lemma generate_chunk_sdf_result origin s :
  cache_from_worker s ->
  dict_has (generate_chunk_sdf origin s).1 "sdf_texture" = false.
Proof.
  intros Hc.
  destruct (generate_chunk_sdf_cases origin s) as [E|[E|(a & b & E & _)]].
  - by rewrite E.
  - apply Hc in E as [_ E]. unfold dict_has. by rewrite E.
  - by rewrite E.
Qed.

Lemma dispatch_loop_sdf_cache fuel : forall s,
  sdf_cache (dispatch_loop fuel s) = sdf_cache s.
Proof.
  induction fuel as [|fuel IH]; intros s; [done|]. cbn [dispatch_loop].
  destruct (negb _); [done|].
  destruct (pq_extract _) as [[t rest]|]; [|done]. cbv zeta.
  destruct (_ || _); rewrite IH; [done|]. cbn.
  match goal with |- sdf_cache (dispatch_chunk_async ?o ?l ?s0) = _ =>
    destruct (dispatch_chunk_async_frame o l s0) as [(B1 & _) _]; by rewrite B1 end.
Qed.

Lemma process_chunk_queue_sdf_cache s :
  sdf_cache (process_chunk_queue s) = sdf_cache s.
Proof.
  unfold process_chunk_queue. rewrite dispatch_loop_sdf_cache.
  match goal with |- sdf_cache (fold_left _ ?l ?s0) = _ =>
    destruct (fold_measured_times_frame l s0) as (F1 & _) end.
  cbn zeta in F1. by rewrite F1.
Qed.

Lemma worker_mark_one_sdf_cache acc origin :
  sdf_cache (worker_mark_one acc origin).1 = sdf_cache acc.1.
Proof. destruct acc as [s tr]. unfold worker_mark_one. by repeat case_match. Qed.

Lemma worker_marks_sdf_cache origins : forall acc,
  sdf_cache (fold_left worker_mark_one origins acc).1 = sdf_cache acc.1.
Proof.
  induction origins as [|o origins IH]; intros acc; [done|]. cbn [fold_left].
  by rewrite IH, worker_mark_one_sdf_cache.
Qed.

Lemma worker_mark_complete_sdf_cache to_complete to_readback s :
  sdf_cache (worker_mark_complete to_complete to_readback s).1 = sdf_cache s.
Proof.
  unfold worker_mark_complete. repeat case_match; try done.
  by rewrite worker_marks_sdf_cache.
Qed.

Lemma generate_block_not_ready input s :
  cache_from_worker s ->
  max_lod_hint (generate_block input s).1.1 = false /\
  (generate_block input s).1.2 = voxel_buffer input /\
  sdf_cache (generate_block input s).2 = sdf_cache s.
Proof.
  intros Hc. unfold generate_block.
  destruct (initialize_gpu_frame s) as (I1 & _).
  assert (Hc' : cache_from_worker (initialize_gpu s).2).
  { intros k d. rewrite I1. apply Hc. }
  destruct (gpu_initialized s).
  - cbn [negb]. destruct (sdf_cache s !! cache_key _ _) as [d|] eqn:E.
    { apply Hc in E as [[o Ho] _]. discriminate Ho. }
    destruct (0 <? query_lod input);
      [split_and!; try done; unfold enqueue_chunk_request; by case_match|].
    pose proof (generate_chunk_sdf_result (origin_in_voxels input) s Hc) as Hr.
    destruct (generate_chunk_sdf_frame (origin_in_voxels input) s) as [(B1 & _) _].
    destruct (generate_chunk_sdf (origin_in_voxels input) s) as [r s'].
    cbn in Hr, B1. rewrite Hr. done.
  - destruct (initialize_gpu s) as [ok s1]. cbn in I1, Hc'.
    destruct ok; [|done]. cbn [negb].
    destruct (sdf_cache s1 !! cache_key _ _) as [d|] eqn:E.
    { apply Hc' in E as [[o Ho] _]. discriminate Ho. }
    destruct (0 <? query_lod input);
      [split_and!; try done; unfold enqueue_chunk_request; by case_match|].
    pose proof (generate_chunk_sdf_result (origin_in_voxels input) s1 Hc') as Hr.
    destruct (generate_chunk_sdf_frame (origin_in_voxels input) s1) as [(B1 & _) _].
    destruct (generate_chunk_sdf (origin_in_voxels input) s1) as [r s'].
    cbn in Hr, B1. rewrite Hr. cbn. by rewrite B1.
Qed.

Lemma enqueue_chunk_request_sdf_cache origin new_lod player_pos s :
  sdf_cache (enqueue_chunk_request origin new_lod player_pos s) = sdf_cache s.
Proof. unfold enqueue_chunk_request. by case_match. Qed.

Lemma step_cache_from_worker s s' :
  step s s' -> cache_from_worker s -> cache_from_worker s'.
Proof.
  intros Hstep Hc. destruct Hstep.
  - destruct (generate_block_not_ready input s Hc) as (_ & _ & E).
    intros k d. rewrite E. apply Hc.
  - intros k d. rewrite enqueue_chunk_request_sdf_cache. apply Hc.
  - intros k d. rewrite process_chunk_queue_sdf_cache. apply Hc.
  - exact Hc.
  - destruct (generate_chunk_sdf_frame origin s) as [(B1 & _) _].
    intros k d. rewrite B1. apply Hc.
  - unfold dispatch_set_flags. case_match; exact Hc.
  - intros k d. rewrite worker_mark_complete_sdf_cache. apply Hc.
  - unfold worker_readback_finish. case_match; [|done]. cbn.
    intros k d. cbn. destruct (decide (k = KeyVector3i origin)) as [->|Hne].
    + rewrite lookup_insert_eq. intros [= <-]. split; [by eexists|].
      apply migrated_entry_no_sdf_texture.
    + rewrite lookup_insert_ne by done. apply Hc.
  - exact Hc.
Qed.

Lemma construct_cache_from_worker h : cache_from_worker (construct h).
Proof.
  unfold construct. intros k d.
  match goal with |- context [initialize_gpu ?s0] =>
    destruct (initialize_gpu_frame s0) as (I1 & _); rewrite I1 end.
  cbn. by rewrite lookup_empty.
Qed.

Lemma reachable_cache_from_worker h s : reachable h s -> cache_from_worker s.
Proof.
  unfold reachable. revert s. apply rtc_ind_r.
  - apply construct_cache_from_worker.
  - intros y z _ Hs IH. by eapply step_cache_from_worker.
Qed.

(** The LOD-0 request for the chunk at the world origin. *)
Definition lod0_query : VoxelQueryData :=
  mkVoxelQueryData Scenario.empty_buffer (mkVector3i 0 0 0) 0.

(** C1 (the code departs from it).  After a LOD-0 [generate_block] has
    returned ready, the next one for the same chunk should be served from
    the cache without a dispatch.  In the code no request ever returns
    ready: in every reachable state [generate_block] leaves
    [max_lod_hint] false, the caller's buffer untouched and the cache as
    it was, because it looks for the members ["sdf_texture"] and
    ["material_texture"] where [generate_chunk_sdf] stores ["sdf"] and
    ["material"].  On a fresh generator two LOD-0 requests for one chunk
    are both answered not ready and each issues its own dispatch. *)
Theorem lod0_block_request_is_never_cached :
  (forall h s input,
     reachable h s ->
     max_lod_hint (generate_block input s).1.1 = false /\
     (generate_block input s).1.2 = voxel_buffer input /\
     sdf_cache (generate_block input s).2 = sdf_cache s)
  /\
  (let first := generate_block lod0_query Scenario.terrain in
   let second := generate_block lod0_query first.2 in
   gpu_initialized Scenario.terrain = true /\
   max_lod_hint first.1.1 = false /\
   max_lod_hint second.1.1 = false /\
   sdf_cache second.2 = ∅ /\
   (rd_dispatch_log <$> rd first.2)
   = Some [DispatchBiomeMap; DispatchSDF (mkVector3i 0 0 0)] /\
   (rd_dispatch_log <$> rd second.2)
   = Some [DispatchBiomeMap; DispatchSDF (mkVector3i 0 0 0);
           DispatchSDF (mkVector3i 0 0 0)]).
Proof.
  split.
  - intros h s input Hr. apply generate_block_not_ready.
    by apply (reachable_cache_from_worker h).
  - cbv zeta. split_and!; vm_compute; reflexivity.
Qed.

(** ** Read-back gating *)

(** [dispatch_chunk_async] leaves the flag at [lod == 0] whenever the
    chunk is in flight when it returns. *)
Lemma dispatch_chunk_async_physics_needed origin new_lod s st :
  chunk_gpu_states (dispatch_chunk_async origin new_lod s) !! origin = Some st ->
  physics_needed st = (new_lod =? 0) /\ lod st = new_lod.
Proof.
  unfold dispatch_chunk_async, dispatch_set_flags.
  set (s1 := (generate_chunk_sdf origin s).2). clearbody s1.
  destruct (chunk_gpu_states s1 !! origin) as [st0|] eqn:E; cbn.
  - rewrite lookup_insert_eq. by intros [= <-].
  - congruence.
Qed.

(** The background thread never writes the flag. *)
Lemma worker_mark_one_physics_needed acc origin o :
  physics_needed <$> (chunk_gpu_states (worker_mark_one acc origin).1 !! o)
  = physics_needed <$> (chunk_gpu_states acc.1 !! o).
Proof.
  destruct acc as [s tr]. unfold worker_mark_one.
  destruct (chunk_gpu_states s !! origin) as [st|] eqn:E; [|done].
  destruct (gpu_complete st); [done|]. cbn.
  destruct (decide (origin = o)) as [->|Hne].
  - by rewrite lookup_insert_eq, E.
  - by rewrite lookup_insert_ne.
Qed.

Lemma worker_readback_finish_physics_needed origin np b1 b2 s o st :
  chunk_gpu_states (worker_readback_finish origin np b1 b2 s) !! o = Some st ->
  chunk_gpu_states s !! o = Some st.
Proof.
  unfold worker_readback_finish.
  destruct (chunk_gpu_states s !! origin) as [st0|] eqn:E; [|done]. cbn.
  destruct (decide (origin = o)) as [->|Hne].
  - by rewrite lookup_delete_eq.
  - by rewrite lookup_delete_ne.
Qed.

(** The read-back of a chunk whose flag is clear caches the two texture
    ids alone; with the flag set, the bytes read are cached when neither
    array is empty. *)
Lemma worker_readback_one_gated s origin st :
  chunk_gpu_states s !! origin = Some st ->
  chunk_gpu_states (worker_readback_one s origin) !! origin = None /\
  exists sdf_bytes mat_bytes,
    sdf_cache (worker_readback_one s origin) !! KeyVector3i origin
    = Some (migrated_entry st (physics_needed st) sdf_bytes mat_bytes) /\
    (physics_needed st = false ->
     dict_has (migrated_entry st (physics_needed st) sdf_bytes mat_bytes) "sdf_data" = false /\
     dict_has (migrated_entry st (physics_needed st) sdf_bytes mat_bytes) "mat_data" = false).
Proof.
  intros E. unfold worker_readback_one, worker_readback_begin. rewrite E.
  destruct (worker_readback_fetch _ _ _ _) as [b1 b2].
  unfold worker_readback_finish. rewrite E. cbn.
  rewrite lookup_delete_eq, lookup_insert_eq. split; [done|].
  exists b1, b2. split; [done|]. intros ->. by unfold migrated_entry.
Qed.

(** What the poll and the cache say about a chunk. *)
Definition cached_summary (origin : Vector3i) (s : state) : option (bool * bool * bool) :=
  (fun e => (dict_bool e "gpu_complete", dict_has e "sdf_data", dict_has e "mat_data"))
    <$> (sdf_cache s !! KeyVector3i origin).

(** C2 (the code departs from it).  A chunk dispatched with LOD above 0
    never gets CPU bytes and a chunk dispatched with LOD 0 should always
    get them once it is complete.  The code sets [physics_needed] in
    [dispatch_chunk_async] only.  A LOD-0 chunk dispatched by
    [generate_block] keeps the flag clear and the background thread caches
    it with no bytes; so does a LOD-0 chunk dispatched by
    [dispatch_chunk_async] when the background thread runs between the
    dispatch and the locked region that sets the flag.  Only when that
    region runs first are the bytes read back.  In every state the flag
    that [dispatch_chunk_async] leaves is [lod == 0], and the read-back of
    a chunk whose flag is clear caches no bytes. *)
Theorem lod0_chunk_can_miss_its_readback :
  (forall origin new_lod s st,
     chunk_gpu_states (dispatch_chunk_async origin new_lod s) !! origin = Some st ->
     physics_needed st = (new_lod =? 0) /\ lod st = new_lod)
  /\
  (forall s origin st,
     chunk_gpu_states s !! origin = Some st -> physics_needed st = false ->
     chunk_gpu_states (worker_readback_one s origin) !! origin = None /\
     exists entry,
       sdf_cache (worker_readback_one s origin) !! KeyVector3i origin = Some entry /\
       dict_has entry "sdf_data" = false /\ dict_has entry "mat_data" = false)
  /\
  let origin := mkVector3i 0 0 0 in
  (let dispatched := (generate_block lod0_query Scenario.terrain).2 in
   (physics_needed <$> chunk_gpu_states dispatched !! origin) = Some false /\
   (lod <$> chunk_gpu_states dispatched !! origin) = Some 0 /\
   cached_summary origin (readback_worker_iteration dispatched)
   = Some (true, false, false))
  /\
  (let dispatched := (generate_chunk_sdf origin Scenario.terrain).2 in
   let migrated := readback_worker_iteration dispatched in
   let flagged := dispatch_set_flags origin 0 migrated in
   chunk_gpu_states flagged !! origin = None /\
   cached_summary origin flagged = Some (true, false, false))
  /\
  (let dispatched := dispatch_chunk_async origin 0 Scenario.terrain in
   (physics_needed <$> chunk_gpu_states dispatched !! origin) = Some true /\
   cached_summary origin (readback_worker_iteration dispatched)
   = Some (true, true, true))
  /\
  (let dispatched := dispatch_chunk_async origin 2 Scenario.terrain in
   (physics_needed <$> chunk_gpu_states dispatched !! origin) = Some false /\
   cached_summary origin (readback_worker_iteration dispatched)
   = Some (true, false, false)).
Proof.
  split; [apply dispatch_chunk_async_physics_needed|].
  split.
  - intros s origin st E Hflag.
    destruct (worker_readback_one_gated s origin st E)
      as (Hgone & b1 & b2 & Hentry & Hbytes).
    split; [done|]. eexists. split; [exact Hentry|]. by apply Hbytes.
  - cbv zeta. split_and!; vm_compute; reflexivity.
Qed.

(** ** Polling *)

(** A poll with no other thread in between stays ready across the two
    locked regions in which the background thread changes a chunk. *)
Lemma poll_ready_after_mark origin acc o :
  ready (get_chunk_gpu_textures origin acc.1) = true ->
  ready (get_chunk_gpu_textures origin (worker_mark_one acc o).1) = true.
Proof.
  destruct acc as [s tr]. unfold worker_mark_one. cbn [fst].
  destruct (chunk_gpu_states s !! o) as [st|] eqn:E; [|done].
  destruct (gpu_complete st) eqn:G; [done|]. cbn [fst].
  unfold get_chunk_gpu_textures, textures_from_cache, textures_from_in_flight. cbn.
  destruct (decide (o = origin)) as [->|Hne].
  - rewrite lookup_insert_eq, E, G. cbn. repeat case_match; done.
  - rewrite lookup_insert_ne by done. done.
Qed.

Lemma poll_ready_after_migration origin s o :
  ready (get_chunk_gpu_textures origin s) = true ->
  ready (get_chunk_gpu_textures origin (worker_readback_one s o)) = true.
Proof.
  unfold worker_readback_one, worker_readback_begin.
  destruct (chunk_gpu_states s !! o) as [st|] eqn:E; [|done].
  destruct (worker_readback_fetch _ _ _ _) as [b1 b2].
  unfold worker_readback_finish. rewrite E.
  unfold get_chunk_gpu_textures, textures_from_cache, textures_from_in_flight. cbn.
  destruct (decide (o = origin)) as [->|Hne].
  - rewrite lookup_insert_eq. intros _.
    unfold migrated_entry.
    destruct (physics_needed st && negb (length b1 =? 0)%nat
              && negb (length b2 =? 0)%nat); reflexivity.
  - rewrite lookup_insert_ne by congruence. rewrite lookup_delete_ne by done. done.
Qed.

(** C5 (the code departs from it).  Once a poll has answered ready for a
    chunk, no later poll should answer not ready.  [get_chunk_gpu_textures]
    looks in the cache and then, after releasing [cache_mutex], in the
    in-flight map, while the background thread moves the chunk the other
    way in one locked region.  A poll that has passed the cache when the
    chunk migrates answers not ready, after an earlier poll answered
    ready and before the next one does.  A poll that runs its two regions
    with no migration in between stays ready across a migration. *)
Theorem poll_ready_can_flip_back :
  (forall origin s o,
     ready (get_chunk_gpu_textures origin s) = true ->
     ready (get_chunk_gpu_textures origin (worker_readback_one s o)) = true)
  /\
  let origin := mkVector3i 0 0 0 in
  let in_flight :=
    process_chunk_queue (enqueue_chunk_request origin 1 Vector3_zero Scenario.terrain) in
  let complete := (worker_mark_complete [origin] [] in_flight).1 in
  let migrated := worker_readback_one complete origin in
  worker_snapshot in_flight = ([origin], []) /\
  ready (get_chunk_gpu_textures origin in_flight) = false /\
  ready (get_chunk_gpu_textures origin complete) = true /\
  textures_from_cache origin complete = None /\
  ready (textures_from_in_flight origin migrated) = false /\
  ready (get_chunk_gpu_textures origin migrated) = true.
Proof.
  split; [apply poll_ready_after_migration|].
  cbv zeta. split_and!; vm_compute; reflexivity.
Qed.

(** ** Unwinding after a failed allocation *)

(** The ids that are live in [after] and were not in [before]. *)
Definition live (s : state) : gset N := default ∅ (rd_live <$> rd s).

Definition left_allocated (before after : state) : gset N :=
  live after ∖ live before.

(** An empty result leaves neither map with an entry for the attempt. *)
Lemma generate_chunk_sdf_empty_result origin s :
  (generate_chunk_sdf origin s).1 = ∅ ->
  chunk_gpu_states (generate_chunk_sdf origin s).2 = chunk_gpu_states s /\
  sdf_cache (generate_chunk_sdf origin s).2 = sdf_cache s.
Proof.
  intros Hempty.
  destruct (generate_chunk_sdf_frame origin s) as [(B1 & _) _].
  split; [|done]. revert Hempty.
  destruct (generate_biome_map_if_needed_frame s) as [_ Hs].
  destruct (generate_chunk_sdf origin s) as [r s'] eqn:E. cbn.
  unfold generate_chunk_sdf in E.
  set (s1 := generate_biome_map_if_needed s) in *. clearbody s1.
  unfold get_or_create_sampler in E.
  repeat case_match; simplify_eq; cbn; try done.
  all: intros Hempty; exfalso;
    apply (f_equal (fun d : gmap string GdVariant => d !! "ready")) in Hempty;
    by vm_compute in Hempty.
Qed.

End TerrainCache.

(** * Properties of the vegetation cache *)

Module VegetationCache.
Import NativeVegetationDispatcher.

(** ** Nested maps *)

Section nested.
Context {V : Type}.
Implicit Types (cache : gmap Vector3i (gmap Z V)).

Lemma nested_lookup_insert_eq c t (v : V) cache :
  nested_lookup c t (nested_insert c t v cache) = Some v.
Proof. unfold nested_lookup, nested_insert. by rewrite !lookup_insert_eq. Qed.

Lemma nested_lookup_insert_ne c t c' t' (v : V) cache :
  mkChunkTypePair c t <> mkChunkTypePair c' t' ->
  nested_lookup c' t' (nested_insert c t v cache) = nested_lookup c' t' cache.
Proof.
  intros Hne. unfold nested_lookup, nested_insert.
  destruct (decide (c = c')) as [->|Hc].
  - rewrite lookup_insert_eq. rewrite lookup_insert_ne by congruence.
    by destruct (cache !! c').
  - by rewrite lookup_insert_ne.
Qed.

Lemma nested_lookup_erase_eq c t cache :
  nested_lookup c t (nested_erase c t cache) = None.
Proof.
  unfold nested_lookup, nested_erase. case_decide.
  - by rewrite lookup_delete_eq.
  - by rewrite lookup_insert_eq, lookup_delete_eq.
Qed.

Lemma nested_lookup_erase_ne c t c' t' cache :
  mkChunkTypePair c t <> mkChunkTypePair c' t' ->
  nested_lookup c' t' (nested_erase c t cache) = nested_lookup c' t' cache.
Proof.
  intros Hne. unfold nested_lookup, nested_erase.
  destruct (decide (c = c')) as [->|Hc].
  - assert (Ht : t <> t') by congruence. case_decide as Hempty.
    + rewrite lookup_delete_eq. destruct (cache !! c') as [inner|]; [|done].
      cbn in Hempty. symmetry.
      apply (f_equal (fun m : gmap Z V => m !! t')) in Hempty.
      by rewrite lookup_delete_ne, lookup_empty in Hempty.
    + rewrite lookup_insert_eq. rewrite lookup_delete_ne by done.
      by destruct (cache !! c').
  - case_decide; by rewrite ?lookup_delete_ne, ?lookup_insert_ne.
Qed.

Lemma cache_entries_delete c inner cache :
  cache !! c = Some inner ->
  cache_entries cache = Z.of_nat (size inner) + cache_entries (delete c cache).
Proof.
  intros E. unfold cache_entries.
  apply (map_fold_delete_L (fun _ (inner : gmap Z V) acc => Z.of_nat (size inner) + acc)); [|done].
  intros. lia.
Qed.

Lemma cache_entries_insert_fresh c inner cache :
  cache !! c = None ->
  cache_entries (<[ c := inner ]> cache) = Z.of_nat (size inner) + cache_entries cache.
Proof.
  intros E. unfold cache_entries.
  apply (map_fold_insert_L (fun _ (inner : gmap Z V) acc => Z.of_nat (size inner) + acc)); [|done].
  intros. lia.
Qed.

Lemma cache_entries_replace c inner cache :
  cache_entries (<[ c := inner ]> cache)
  = Z.of_nat (size inner) + cache_entries (delete c cache).
Proof.
  rewrite <- insert_delete_eq. apply cache_entries_insert_fresh, lookup_delete_eq.
Qed.

Lemma cache_entries_nested_insert c t (v : V) cache :
  nested_lookup c t cache = None ->
  cache_entries (nested_insert c t v cache) = cache_entries cache + 1.
Proof.
  unfold nested_lookup, nested_insert. intros E. rewrite cache_entries_replace.
  destruct (cache !! c) as [inner|] eqn:Ec; cbn.
  - rewrite (cache_entries_delete c inner cache Ec).
    rewrite map_size_insert_None by done. lia.
  - rewrite delete_id by done. rewrite map_size_insert_None by apply lookup_empty.
    rewrite map_size_empty. lia.
Qed.

Lemma cache_entries_nested_erase c t cache :
  is_Some (nested_lookup c t cache) ->
  cache_entries (nested_erase c t cache) = cache_entries cache - 1.
Proof.
  unfold nested_lookup, nested_erase. intros [v E].
  destruct (cache !! c) as [inner|] eqn:Ec; [|done]. cbn.
  rewrite (cache_entries_delete c inner cache Ec).
  pose proof (map_size_delete_Some t inner (mk_is_Some _ _ E)) as Hsize.
  assert (Hpos : size inner <> 0%nat).
  { apply map_size_non_empty_iff. intros ->. by rewrite lookup_empty in E. }
  case_decide as Hempty.
  - rewrite Hempty, map_size_empty in Hsize. lia.
  - rewrite cache_entries_replace. lia.
Qed.

End nested.

(** ** The LRU index and the caches move in lock-step *)

Definition lookup_key {V} (k : ChunkTypePair) (cache : gmap Vector3i (gmap Z V))
  : option V :=
  nested_lookup (chunk k) (type k) cache.

Definition lru_consistent (s : state) : Prop :=
  NoDup (lru_list s) /\
  (forall k, k ∈ lru_map s <-> k ∈ lru_list s) /\
  (forall k, is_Some (lookup_key k (placement_cache s)) <-> k ∈ lru_list s) /\
  get_cache_size s = Z.of_nat (length (lru_list s)).

Definition live_of (d : option RenderingDevice) : gset N := default ∅ (rd_live <$> d).

Definition live (s : state) : gset N := live_of (rd s).

(** Nothing is stored for [k]. *)
Definition absent (k : ChunkTypePair) (s : state) : Prop :=
  lookup_key k (placement_cache s) = None /\
  lookup_key k (buffer_cache s) = None /\
  lookup_key k (transform_buffer_cache s) = None.

(** What is stored for [k] is the same in both states. *)
Definition untouched (k : ChunkTypePair) (s s' : state) : Prop :=
  lookup_key k (placement_cache s') = lookup_key k (placement_cache s) /\
  lookup_key k (buffer_cache s') = lookup_key k (buffer_cache s) /\
  lookup_key k (transform_buffer_cache s') = lookup_key k (transform_buffer_cache s).

(** [r] is the placement buffer or the transform buffer of [k]. *)
Definition handle_of (k : ChunkTypePair) (s : state) (r : RID) : Prop :=
  lookup_key k (buffer_cache s) = Some r \/
  lookup_key k (transform_buffer_cache s) = Some r.

(** From [s] to [s'] the keys [ks], and only they, were evicted: their
    entries are gone from the three caches and their buffers released. *)
Definition evicted (s s' : state) (ks : list ChunkTypePair) : Prop :=
  (forall k, k ∈ ks -> absent k s') /\
  (forall k, k ∉ ks -> untouched k s s') /\
  live s' ⊆ live s /\
  (forall k r, k ∈ ks -> handle_of k s r -> is_valid r = true -> r ∉ live s').

Lemma evicted_nil s : evicted s s [].
Proof.
  split_and!; try done.
  - intros k Hk. by apply elem_of_nil in Hk.
  - intros k r Hk. by apply elem_of_nil in Hk.
Qed.

Lemma evicted_app s s1 s2 ks1 ks2 :
  evicted s s1 ks1 -> evicted s1 s2 ks2 -> evicted s s2 (ks1 ++ ks2).
Proof.
  intros (A1 & U1 & L1 & R1) (A2 & U2 & L2 & R2). split_and!.
  - intros k Hk. apply elem_of_app in Hk as [Hk|Hk].
    + destruct (decide (k ∈ ks2)) as [Hk2|Hk2]; [by apply A2|].
      destruct (U2 k Hk2) as (E1 & E2 & E3). destruct (A1 k Hk) as (N1 & N2 & N3).
      unfold absent. by rewrite E1, E2, E3.
    + by apply A2.
  - intros k Hk. apply not_elem_of_app in Hk as [Hk1 Hk2].
    destruct (U1 k Hk1) as (E1 & E2 & E3). destruct (U2 k Hk2) as (F1 & F2 & F3).
    unfold untouched. by rewrite F1, F2, F3.
  - set_solver.
  - intros k r Hk Hh Hv. destruct (decide (k ∈ ks1)) as [Hk1|Hk1].
    + pose proof (R1 k r Hk1 Hh Hv). set_solver.
    + apply elem_of_app in Hk as [Hk|Hk]; [done|].
      apply (R2 k r Hk); [|done].
      destruct (U1 k Hk1) as (_ & E2 & E3). unfold handle_of in *.
      by rewrite E2, E3.
Qed.

Lemma release_buffer_spec key cache d :
  lookup_key key (release_buffer key cache d).1 = None /\
  (forall k, k <> key ->
     lookup_key k (release_buffer key cache d).1 = lookup_key k cache) /\
  live_of (release_buffer key cache d).2 ⊆ live_of d /\
  (forall r, lookup_key key cache = Some r -> is_valid r = true ->
     r ∉ live_of (release_buffer key cache d).2).
Proof.
  unfold release_buffer, lookup_key.
  destruct (nested_lookup (chunk key) (type key) cache) as [buffer|] eqn:E; cbn.
  - split_and!.
    + apply nested_lookup_erase_eq.
    + intros k Hk. apply nested_lookup_erase_ne. destruct k, key. cbn. congruence.
    + destruct (is_valid buffer); [|done]. destruct d; cbn; set_solver.
    + intros r [= <-] ->. destruct d; cbn; set_solver.
  - split_and!; try done.
Qed.

Lemma evict_lru_entry_spec s l oldest :
  lru_consistent s ->
  lru_list s = l ++ [oldest] ->
  lru_consistent (evict_lru_entry s) /\
  lru_list (evict_lru_entry s) = l /\
  max_cache_entries (evict_lru_entry s) = max_cache_entries s /\
  evicted s (evict_lru_entry s) [oldest].
Proof.
  intros (Hnd & Hmap & Hpc & Hsize) Hl.
  unfold evict_lru_entry. rewrite Hl, last_snoc, removelast_last.
  cbn -[release_buffer nested_erase].
  destruct (release_buffer_spec oldest (buffer_cache s) (rd s)) as (B1 & B2 & B3 & B4).
  destruct (release_buffer oldest (buffer_cache s) (rd s)) as [buffers d1].
  destruct (release_buffer_spec oldest (transform_buffer_cache s) d1) as (T1 & T2 & T3 & T4).
  destruct (release_buffer oldest (transform_buffer_cache s) d1) as [transforms d2].
  cbn in *.
  rewrite Hl in Hnd. apply NoDup_app in Hnd as (Hndl & Hdisj & _).
  assert (Hold : oldest ∉ l) by (intros Hin; apply (Hdisj _ Hin); by left).
  assert (Hpresent : is_Some (lookup_key oldest (placement_cache s))).
  { apply Hpc. rewrite Hl. apply elem_of_app. right. by left. }
  split; [|split; [done|split; [done|]]].
  - split; [done|split; [|split]]; cbn.
    + intros k. rewrite elem_of_difference, Hmap, Hl, elem_of_app.
      rewrite list_elem_of_singleton, elem_of_singleton.
      split; [tauto|]. intros Hk. split; [by left|]. by intros ->.
    + intros k. unfold lookup_key. destruct (decide (k = oldest)) as [->|Hne].
      * rewrite nested_lookup_erase_eq. split; [by intros [? ?]|done].
      * rewrite nested_lookup_erase_ne by (destruct k, oldest; cbn; congruence).
        fold (lookup_key k (placement_cache s)). rewrite Hpc, Hl, elem_of_app.
        rewrite list_elem_of_singleton. tauto.
    + unfold get_cache_size in *. cbn.
      rewrite cache_entries_nested_erase by done.
      rewrite Hsize, Hl, length_app. cbn. lia.
  - split_and!.
    + intros k Hk. apply list_elem_of_singleton in Hk as ->.
      unfold absent, lookup_key. cbn.
      split_and!; try done. apply nested_lookup_erase_eq.
    + intros k Hk. apply not_elem_of_cons in Hk as [Hk _].
      unfold untouched, lookup_key. cbn. split_and!; [|by apply B2|by apply T2].
      apply nested_lookup_erase_ne. destruct k, oldest; cbn in *; congruence.
    + unfold live. cbn. set_solver.
    + intros k r Hk [Hh|Hh] Hv; apply list_elem_of_singleton in Hk as ->;
        unfold live; cbn.
      * pose proof (B4 r Hh Hv). set_solver.
      * by apply T4.
Qed.

Lemma evicted_same_keys s s' ks ks' :
  (forall k, k ∈ ks <-> k ∈ ks') -> evicted s s' ks -> evicted s s' ks'.
Proof.
  intros Hks (A & U & L & R). split_and!; [| |done|].
  - intros k Hk. apply A. by apply Hks.
  - intros k Hk. apply U. by rewrite Hks.
  - intros k r Hk. apply R. by apply Hks.
Qed.

(** [n] evictions in a row drop the last [n] keys of the recency list. *)
Lemma evict_lru_entries_spec n : forall s,
  lru_consistent s ->
  (n <= length (lru_list s))%nat ->
  lru_consistent (Nat.iter n evict_lru_entry s) /\
  lru_list (Nat.iter n evict_lru_entry s)
  = take (length (lru_list s) - n) (lru_list s) /\
  max_cache_entries (Nat.iter n evict_lru_entry s) = max_cache_entries s /\
  evicted s (Nat.iter n evict_lru_entry s)
          (drop (length (lru_list s) - n) (lru_list s)).
Proof.
  induction n as [|n IH]; intros s Hs Hn.
  - cbn [Nat.iter nat_rect]. rewrite Nat.sub_0_r, firstn_all, drop_all.
    split_and!; try done. apply evicted_nil.
  - destruct (IH s Hs ltac:(lia)) as (Hc & Hl & Hm & He).
    change (Nat.iter (S n) evict_lru_entry s)
      with (evict_lru_entry (Nat.iter n evict_lru_entry s)).
    set (s1 := Nat.iter n evict_lru_entry s) in *.
    set (m := (length (lru_list s) - S n)%nat).
    assert (Hm' : (length (lru_list s) - n)%nat = S m) by (unfold m; lia).
    destruct (lookup_lt_is_Some_2 (lru_list s) m ltac:(unfold m; lia)) as [x Hx].
    rewrite Hm' in *. rewrite (take_S_r _ _ _ Hx) in Hl.
    destruct (evict_lru_entry_spec s1 _ x Hc Hl) as (Hc' & Hl' & Hm'' & He').
    split_and!; try done; [congruence|].
    apply (evicted_same_keys _ _ (drop (S m) (lru_list s) ++ [x])).
    + intros k. rewrite (drop_S _ _ _ Hx), elem_of_app, !elem_of_cons, elem_of_nil.
      tauto.
    + by apply (evicted_app s s1).
Qed.

Lemma update_lru_access_fresh c t s :
  mkChunkTypePair c t ∉ lru_map s ->
  lru_list (update_lru_access c t s) = mkChunkTypePair c t :: lru_list s /\
  lru_map (update_lru_access c t s) = {[ mkChunkTypePair c t ]} ∪ lru_map s.
Proof. intros Hk. unfold update_lru_access. by rewrite decide_False. Qed.

(** The insertion of a key that was not cached. *)
Lemma insert_placements_spec c t buffer cpu_fallback s :
  lru_consistent s ->
  lookup_key (mkChunkTypePair c t) (placement_cache s) = None ->
  lru_consistent (insert_placements c t buffer cpu_fallback s).2 /\
  lru_list (insert_placements c t buffer cpu_fallback s).2
  = mkChunkTypePair c t :: lru_list s /\
  max_cache_entries (insert_placements c t buffer cpu_fallback s).2
  = max_cache_entries s /\
  live (insert_placements c t buffer cpu_fallback s).2 = live s /\
  lookup_key (mkChunkTypePair c t)
             (placement_cache (insert_placements c t buffer cpu_fallback s).2)
  = Some (insert_placements c t buffer cpu_fallback s).1 /\
  lookup_key (mkChunkTypePair c t)
             (buffer_cache (insert_placements c t buffer cpu_fallback s).2)
  = Some buffer /\
  (forall k, k <> mkChunkTypePair c t ->
     untouched k s (insert_placements c t buffer cpu_fallback s).2).
Proof.
  intros (Hnd & Hmap & Hpc & Hsize) Habsent.
  assert (Hfresh : mkChunkTypePair c t ∉ lru_list s).
  { rewrite <- Hpc, Habsent. by intros [? ?]. }
  unfold insert_placements. cbn -[nested_insert decode_placements].
  set (placements := match cpu_fallback, rd s with
                     | true, Some d => decode_placements (buffer_get_data buffer d)
                     | _, _ => [] end).
  unfold update_lru_access. cbn -[nested_insert decode_placements].
  rewrite decide_False by (by rewrite Hmap).
  cbn -[nested_insert decode_placements].
  unfold lru_consistent, lookup_key in *. cbn [chunk type] in *.
  split_and!; try done; cbn -[nested_insert decode_placements].
  - by apply NoDup_cons.
  - intros k. rewrite elem_of_union, elem_of_singleton, elem_of_cons, Hmap. done.
  - intros k. rewrite elem_of_cons, <- Hpc.
    destruct (decide (k = mkChunkTypePair c t)) as [->|Hne]; cbn [chunk type].
    + rewrite nested_lookup_insert_eq. split; [by left|by eexists].
    + rewrite nested_lookup_insert_ne by (destruct k; cbn; congruence).
      split; [by right|]. by intros [|].
  - unfold get_cache_size in *. cbn -[nested_insert decode_placements].
    rewrite cache_entries_nested_insert by done. rewrite Hsize. cbn [length]. lia.
  - apply nested_lookup_insert_eq.
  - apply nested_lookup_insert_eq.
  - intros k Hk. unfold untouched, lookup_key. cbn -[nested_insert decode_placements].
    rewrite !nested_lookup_insert_ne by (destruct k; cbn in *; congruence). done.
Qed.

(** A miss that is stored makes its key the most recent one and keeps the
    [max_cache_entries] most recent keys; the others are evicted. *)
Lemma store_placements_spec c t buffer cpu_fallback s :
  lru_consistent s ->
  0 <= max_cache_entries s ->
  lookup_key (mkChunkTypePair c t) (placement_cache s) = None ->
  let inserted := (insert_placements c t buffer cpu_fallback s).2 in
  let stored := (store_placements c t buffer cpu_fallback s).2 in
  let order := mkChunkTypePair c t :: lru_list s in
  lru_consistent stored /\
  lru_list stored = take (Z.to_nat (max_cache_entries s)) order /\
  max_cache_entries stored = max_cache_entries s /\
  get_cache_size stored <= max_cache_entries s /\
  evicted inserted stored (drop (Z.to_nat (max_cache_entries s)) order).
Proof.
  intros Hs Hmax Habsent.
  destruct (insert_placements_spec c t buffer cpu_fallback s Hs Habsent)
    as (Hc & Hl & Hm & _).
  unfold store_placements.
  destruct (insert_placements c t buffer cpu_fallback s) as [placements s1].
  cbn [fst snd] in *. cbv zeta. unfold evict_until_within.
  assert (Hsize : get_cache_size s1 = Z.of_nat (length (lru_list s1))) by apply Hc.
  rewrite Hsize, Hm.
  set (n := Z.to_nat (Z.of_nat (length (lru_list s1)) - max_cache_entries s)).
  destruct (evict_lru_entries_spec n s1 Hc ltac:(unfold n; lia)) as (Hc' & Hl' & Hm' & He).
  assert (Hkeep : take (length (lru_list s1) - n) (lru_list s1)
                  = take (Z.to_nat (max_cache_entries s)) (lru_list s1)).
  { destruct (decide (length (lru_list s1) <= Z.to_nat (max_cache_entries s))%nat).
    - rewrite !take_ge; [done|lia|unfold n; lia].
    - f_equal. unfold n. lia. }
  assert (Hdrop : drop (length (lru_list s1) - n) (lru_list s1)
                  = drop (Z.to_nat (max_cache_entries s)) (lru_list s1)).
  { destruct (decide (length (lru_list s1) <= Z.to_nat (max_cache_entries s))%nat).
    - rewrite !drop_ge; [done|lia|unfold n; lia].
    - f_equal. unfold n. lia. }
  rewrite Hkeep in Hl'. rewrite Hdrop in He. rewrite Hl in *.
  split_and!; try done; [congruence|].
  destruct Hc' as (_ & _ & _ & ->). rewrite Hl', length_take. lia.
Qed.

(** ** Every call keeps the index consistent *)

(** The members the consistency of the index is about. *)
Definition same_index (s s' : state) : Prop :=
  lru_list s' = lru_list s /\ lru_map s' = lru_map s /\
  placement_cache s' = placement_cache s /\
  max_cache_entries s' = max_cache_entries s.

Lemma same_index_consistent s s' :
  same_index s s' -> lru_consistent s -> lru_consistent s'.
Proof.
  intros (E1 & E2 & E3 & _). unfold lru_consistent, get_cache_size.
  by rewrite E1, E2, E3.
Qed.

Lemma list_erase_elem_of key (l : list ChunkTypePair) k :
  NoDup l -> k ∈ list_erase key l <-> k ∈ l /\ k <> key.
Proof.
  induction l as [|x l IH]; intros Hnd; cbn [list_erase].
  - rewrite elem_of_nil. tauto.
  - apply NoDup_cons in Hnd as [Hx Hnd]. case_decide as Hk.
    + subst x. rewrite elem_of_cons. split.
      * intros Hin. split; [by right|]. by intros ->.
      * intros [[->|Hin] Hne]; done.
    + rewrite !elem_of_cons, IH by done. split.
      * intros [->|[Hin Hne]]; [split; [by left|done]|split; [by right|done]].
      * intros [[->|Hin] Hne]; [by left|by right].
Qed.

Lemma list_erase_NoDup key (l : list ChunkTypePair) :
  NoDup l -> NoDup (list_erase key l).
Proof.
  induction l as [|x l IH]; intros Hnd; cbn [list_erase]; [done|].
  apply NoDup_cons in Hnd as [Hx Hnd]. case_decide; [done|].
  apply NoDup_cons. split; [|by apply IH].
  rewrite list_erase_elem_of by done. tauto.
Qed.

Lemma list_erase_length key (l : list ChunkTypePair) :
  key ∈ l -> S (length (list_erase key l)) = length l.
Proof.
  induction l as [|x l IH]; intros Hin; cbn [list_erase length].
  - by apply elem_of_nil in Hin.
  - case_decide as Hk; [done|]. cbn [length]. f_equal. apply IH.
    apply elem_of_cons in Hin as [->|Hin]; done.
Qed.

(** A hit moves its key to the front. *)
Lemma update_lru_access_consistent c t s :
  lru_consistent s ->
  is_Some (lookup_key (mkChunkTypePair c t) (placement_cache s)) ->
  lru_consistent (update_lru_access c t s) /\
  get_cache_size (update_lru_access c t s) = get_cache_size s.
Proof.
  intros (Hnd & Hmap & Hpc & Hsize) Hhit.
  assert (Hin : mkChunkTypePair c t ∈ lru_list s) by by apply Hpc.
  unfold update_lru_access. rewrite decide_True by by apply Hmap.
  split; [|reflexivity]. unfold lru_consistent, get_cache_size. cbn.
  split_and!.
  - apply NoDup_cons. split; [|by apply list_erase_NoDup].
    rewrite list_erase_elem_of by done. tauto.
  - intros k. rewrite elem_of_union, elem_of_singleton, elem_of_cons.
    rewrite list_erase_elem_of, Hmap by done.
    destruct (decide (k = mkChunkTypePair c t)) as [->|]; tauto.
  - intros k. rewrite elem_of_cons, list_erase_elem_of, Hpc by done.
    destruct (decide (k = mkChunkTypePair c t)) as [->|]; tauto.
  - unfold get_cache_size in Hsize. rewrite Hsize. cbn [length].
    by rewrite list_erase_length.
Qed.

(** A creation call either fails, with the null id, or adds a valid id
    to the live ones; it is no dispatch. *)
Lemma rd_create_spec d :
  rd_dispatch_log (rd_create d).2 = rd_dispatch_log d /\
  ((is_valid (rd_create d).1 = false /\ rd_live (rd_create d).2 = rd_live d) \/
   (is_valid (rd_create d).1 = true /\
    rd_live (rd_create d).2 = {[ (rd_create d).1 ]} ∪ rd_live d)).
Proof.
  unfold rd_create. repeat case_match; cbn; split; try done; try (by left).
  all: right; split; [|done]; unfold is_valid; by destruct (rd_created d).
Qed.

Lemma uniform_set_create_spec ids d :
  rd_dispatch_log (uniform_set_create ids d).2 = rd_dispatch_log d /\
  ((is_valid (uniform_set_create ids d).1 = false /\
    rd_live (uniform_set_create ids d).2 = rd_live d) \/
   (is_valid (uniform_set_create ids d).1 = true /\
    rd_live (uniform_set_create ids d).2
    = {[ (uniform_set_create ids d).1 ]} ∪ rd_live d)).
Proof.
  unfold uniform_set_create. case_match; [apply rd_create_spec|].
  split; [done|]. by left.
Qed.

Lemma initialize_gpu_same_index s :
  same_index s (initialize_gpu s).2 /\
  buffer_cache (initialize_gpu s).2 = buffer_cache s /\
  transform_buffer_cache (initialize_gpu s).2 = transform_buffer_cache s /\
  terrain_dispatcher (initialize_gpu s).2 = terrain_dispatcher s /\
  (rd_dispatch_log <$> rd (initialize_gpu s).2) = (rd_dispatch_log <$> rd s).
Proof.
  unfold initialize_gpu, same_index, rd_create.
  repeat case_match; simplify_eq; cbn; try done.
  all: split_and!; try done.
  all: by match goal with H : rd _ = _ |- _ => rewrite H end.
Qed.

(** What a missed call does besides storing. *)
Lemma generate_placements_miss_cases c t params biome cpu_fallback s :
  ((generate_placements_miss c t params biome cpu_fallback s).1 = [] /\
   same_index s (generate_placements_miss c t params biome cpu_fallback s).2 /\
   buffer_cache (generate_placements_miss c t params biome cpu_fallback s).2
   = buffer_cache s /\
   transform_buffer_cache (generate_placements_miss c t params biome cpu_fallback s).2
   = transform_buffer_cache s /\
   (rd_dispatch_log <$> rd (generate_placements_miss c t params biome cpu_fallback s).2)
   = (rd_dispatch_log <$> rd s) /\
   live (generate_placements_miss c t params biome cpu_fallback s).2 ⊆ live s)
  \/
  (exists ready buffer uniform_set get_sdf_texture_for_chunk,
     terrain_dispatcher s = Some get_sdf_texture_for_chunk /\
     is_valid (get_sdf_texture_for_chunk c) = true /\
     same_index s ready /\
     generate_placements_miss c t params biome cpu_fallback s
     = ((store_placements c t buffer cpu_fallback ready).1,
        set_rd (free_rid uniform_set
                  <$> rd (store_placements c t buffer cpu_fallback ready).2)
               (store_placements c t buffer cpu_fallback ready).2)).
Proof.
  unfold generate_placements_miss.
  destruct (is_valid biome) eqn:Hb; cbn [negb];
    [|left; by split_and!].
  destruct (terrain_dispatcher s) as [f|] eqn:Hf; cbn [negb is_valid N.eqb RID_null];
    [|left; by split_and!].
  destruct (is_valid (f c)) eqn:Hv; cbn [negb]; [|left; by split_and!].
  destruct (rd s) as [d|] eqn:Hd; [|left; split_and!; try done; cbn; by rewrite Hd].
  destruct (rd_create d) as [buffer d1] eqn:E1.
  destruct (uniform_set_create _ d1) as [uniform_set d2] eqn:E2.
  destruct (is_valid uniform_set) eqn:Hu; cbn [negb].
  - right.
    exists (set_rd (Some (compute_list_dispatch (DispatchPlacement c t) d2))
              (record_timing t
                 (u64 (host_ticks_usec
                         (host (set_host (elapse (host_sync_usec (host s)) (host s)) s))
                       - host_ticks_usec (host s)))
                 (set_host (elapse (host_sync_usec (host s)) (host s)) s))),
           buffer, uniform_set, f.
    split_and!; [done|done| |].
    + unfold same_index, record_timing. by case_match.
    + by destruct (store_placements c t buffer cpu_fallback _) as [p s2].
  - left.
    destruct (rd_create_spec d) as [L1 V1]. rewrite E1 in L1, V1. cbn in L1, V1.
    match type of E2 with uniform_set_create ?ids _ = _ =>
      destruct (uniform_set_create_spec ids d1) as [L2 V2] end.
    rewrite E2 in L2, V2. cbn in L2, V2.
    destruct V2 as [[_ V2]|[V2 _]]; [|congruence].
    split_and!; try done; cbn; [congruence|].
    unfold live, live_of. rewrite Hd. cbn. rewrite V2.
    destruct V1 as [[_ ->]|[_ ->]]; set_solver.
Qed.

(** A refused uniform set: the storage buffer created for the attempt is
    freed and nothing else changes. *)
Lemma generate_placements_refused_uniform_set c t params biome cpu_fallback s d f rest :
  gpu_initialized s = true ->
  nested_lookup c t (placement_cache s) = None ->
  is_valid biome = true ->
  terrain_dispatcher s = Some f -> is_valid (f c) = true ->
  rd s = Some d -> rd_outcomes d = true :: false :: rest ->
  (generate_placements c t params biome cpu_fallback s).1 = [] /\
  same_index s (generate_placements c t params biome cpu_fallback s).2 /\
  buffer_cache (generate_placements c t params biome cpu_fallback s).2 = buffer_cache s /\
  transform_buffer_cache (generate_placements c t params biome cpu_fallback s).2
  = transform_buffer_cache s /\
  (rd_dispatch_log <$> rd (generate_placements c t params biome cpu_fallback s).2)
  = Some (rd_dispatch_log d) /\
  live (generate_placements c t params biome cpu_fallback s).2 ⊆ live s.
Proof.
  intros Hi Hm Hb Hf Hv Hd Ho.
  destruct (generate_placements c t params biome cpu_fallback s) as [r s'] eqn:E.
  unfold generate_placements in E. rewrite Hi in E. cbn [negb] in E.
  rewrite Hm in E. unfold generate_placements_miss in E.
  rewrite Hb, Hf, Hv, Hd in E. cbn [negb] in E.
  unfold rd_create at 1 in E. rewrite Ho in E. cbn [tl] in E.
  unfold uniform_set_create, rd_create in E. cbn [rd_outcomes] in E.
  destruct (forallb is_valid _) in E;
    change (negb (is_valid RID_null)) with true in E; cbv iota in E;
    simplify_eq; cbn.
  all: split_and!; try done.
  all: unfold live, live_of; cbn; rewrite ?Hd; cbn; set_solver.
Qed.

(** ** Calls that cannot generate *)

(** C7.  A call of [generate_placements] for a key that is not cached,
    made when no terrain provider is set or when the provider has no
    valid SDF image for the chunk, returns an empty list, dispatches
    nothing and leaves the placement cache, the two buffer caches and the
    LRU index as they were. *)
Theorem generate_placements_without_terrain_sdf c t params biome cpu_fallback s :
  nested_lookup c t (placement_cache s) = None ->
  (forall get_sdf_texture_for_chunk,
     terrain_dispatcher s = Some get_sdf_texture_for_chunk ->
     is_valid (get_sdf_texture_for_chunk c) = false) ->
  (generate_placements c t params biome cpu_fallback s).1 = [] /\
  placement_cache (generate_placements c t params biome cpu_fallback s).2
  = placement_cache s /\
  buffer_cache (generate_placements c t params biome cpu_fallback s).2
  = buffer_cache s /\
  transform_buffer_cache (generate_placements c t params biome cpu_fallback s).2
  = transform_buffer_cache s /\
  lru_list (generate_placements c t params biome cpu_fallback s).2 = lru_list s /\
  lru_map (generate_placements c t params biome cpu_fallback s).2 = lru_map s /\
  (rd_dispatch_log <$> rd (generate_placements c t params biome cpu_fallback s).2)
  = (rd_dispatch_log <$> rd s).
Proof.
  intros Hmiss Hterrain. unfold generate_placements.
  assert (Hrun : forall s1,
    same_index s s1 -> buffer_cache s1 = buffer_cache s ->
    transform_buffer_cache s1 = transform_buffer_cache s ->
    terrain_dispatcher s1 = terrain_dispatcher s ->
    (rd_dispatch_log <$> rd s1) = (rd_dispatch_log <$> rd s) ->
    let r := match nested_lookup c t (placement_cache s1) with
             | Some cached => (cached, update_lru_access c t s1)
             | None => generate_placements_miss c t params biome cpu_fallback s1
             end in
    r.1 = [] /\ placement_cache r.2 = placement_cache s /\
    buffer_cache r.2 = buffer_cache s /\
    transform_buffer_cache r.2 = transform_buffer_cache s /\
    lru_list r.2 = lru_list s /\ lru_map r.2 = lru_map s /\
    (rd_dispatch_log <$> rd r.2) = (rd_dispatch_log <$> rd s)).
  { intros s1 (E1 & E2 & E3 & E4) Eb Et Ed El. rewrite E3, Hmiss. cbv zeta.
    destruct (generate_placements_miss_cases c t params biome cpu_fallback s1)
      as [(R & (F1 & F2 & F3 & F4) & Fb & Ft & Fl & _)
         |(ready & buffer & uset & f & Hf & Hv & _)].
    - split_and!; congruence.
    - rewrite Ed in Hf. pose proof (Hterrain f Hf). congruence. }
  destruct (gpu_initialized s).
  - cbn [negb]. by apply Hrun.
  - destruct (initialize_gpu_same_index s) as (Hi & Hb & Ht & Hd & Hl).
    destruct (initialize_gpu s) as [ok s1]. cbn [fst snd] in *.
    destruct ok; cbn [negb].
    + by apply Hrun.
    + destruct Hi as (E1 & E2 & E3 & E4). by split_and!.
Qed.

Lemma generate_placements_without_terrain_sdf_witness :
  ((generate_placements Scenario.chunk_A 0 Scenario.sample_params 55%N true
      Scenario.vegetation_without_terrain).1 = [] /\
   placement_cache
     (generate_placements Scenario.chunk_A 0 Scenario.sample_params 55%N true
        Scenario.vegetation_without_terrain).2
   = placement_cache Scenario.vegetation_without_terrain) /\
  ((generate_placements Scenario.chunk_A 0 Scenario.sample_params 55%N true
      Scenario.vegetation_without_sdf).1 = [] /\
   (rd_dispatch_log
      <$> rd (generate_placements Scenario.chunk_A 0 Scenario.sample_params 55%N true
                Scenario.vegetation_without_sdf).2)
   = (rd_dispatch_log <$> rd Scenario.vegetation_without_sdf)).
Proof.
  split.
  - pose proof (generate_placements_without_terrain_sdf
                  Scenario.chunk_A 0 Scenario.sample_params 55%N true
                  Scenario.vegetation_without_terrain) as H.
    destruct H as (H1 & H2 & _); [reflexivity|intros g Hg; discriminate Hg|].
    by split.
  - pose proof (generate_placements_without_terrain_sdf
                  Scenario.chunk_A 0 Scenario.sample_params 55%N true
                  Scenario.vegetation_without_sdf) as H.
    destruct H as (H1 & _ & _ & _ & _ & _ & H7);
      [reflexivity|by intros g [= <-]|].
    by split.
Defined.

(** ** LRU eviction *)

Lemma construct_lru_consistent h : lru_consistent (construct h).
Proof.
  unfold lru_consistent, construct, get_cache_size, cache_entries, lookup_key,
    nested_lookup. cbn. split_and!.
  - constructor.
  - intros k. rewrite elem_of_nil. set_solver.
  - intros k. rewrite lookup_empty, elem_of_nil. split; [by intros [? ?]|done].
  - by rewrite map_fold_empty.
Qed.

Lemma is_chunk_ready_iff c t s :
  lru_consistent s ->
  is_chunk_ready c t s = true <-> mkChunkTypePair c t ∈ lru_list s.
Proof.
  intros (_ & _ & Hpc & _). unfold is_chunk_ready.
  rewrite bool_decide_eq_true. apply (Hpc (mkChunkTypePair c t)).
Qed.

(** Whatever [generate_placements] does, the index stays consistent, and
    either an entry was inserted and the cache is within its bound, or
    the number of entries is what it was. *)
Lemma generate_placements_consistent c t params biome cpu_fallback s :
  lru_consistent s ->
  0 <= max_cache_entries s ->
  lru_consistent (generate_placements c t params biome cpu_fallback s).2 /\
  max_cache_entries (generate_placements c t params biome cpu_fallback s).2
  = max_cache_entries s /\
  (get_cache_size (generate_placements c t params biome cpu_fallback s).2
   <= max_cache_entries s \/
   get_cache_size (generate_placements c t params biome cpu_fallback s).2
   = get_cache_size s).
Proof.
  intros Hs Hmax. unfold generate_placements.
  assert (Hrun : forall s1,
    same_index s s1 ->
    let r := match nested_lookup c t (placement_cache s1) with
             | Some cached => (cached, update_lru_access c t s1)
             | None => generate_placements_miss c t params biome cpu_fallback s1
             end in
    lru_consistent r.2 /\ max_cache_entries r.2 = max_cache_entries s /\
    (get_cache_size r.2 <= max_cache_entries s \/ get_cache_size r.2 = get_cache_size s)).
  { intros s1 Hi. pose proof (same_index_consistent s s1 Hi Hs) as Hs1.
    destruct Hi as (E1 & E2 & E3 & E4). cbv zeta.
    destruct (nested_lookup c t (placement_cache s1)) as [cached|] eqn:Hlook.
    - destruct (update_lru_access_consistent c t s1 Hs1) as [Hc Hsize].
      { unfold lookup_key. cbn. by rewrite Hlook. }
      cbn [fst snd]. split_and!; [done|by rewrite <- E4|right].
      rewrite Hsize. unfold get_cache_size. by rewrite E3.
    - destruct (generate_placements_miss_cases c t params biome cpu_fallback s1)
        as [(_ & Hi' & _)|(ready & buffer & uset & f & _ & _ & Hi' & ->)].
      + split_and!.
        * by apply (same_index_consistent s1).
        * destruct Hi' as (_ & _ & _ & ->). done.
        * right. unfold get_cache_size. destruct Hi' as (_ & _ & -> & _).
          by rewrite E3.
      + pose proof (same_index_consistent s1 ready Hi' Hs1) as Hr.
        destruct Hi' as (F1 & F2 & F3 & F4).
        destruct (store_placements_spec c t buffer cpu_fallback ready Hr)
          as (Hc & _ & Hm & Hb & _).
        { lia. } { unfold lookup_key. cbn. by rewrite F3. }
        cbn [fst snd]. split_and!.
        * by apply (same_index_consistent
                      (store_placements c t buffer cpu_fallback ready).2).
        * unfold set_rd. cbn [max_cache_entries]. lia.
        * left. unfold get_cache_size in *. unfold set_rd. cbn [placement_cache]. lia. }
  destruct (gpu_initialized s).
  - cbn [negb]. by apply Hrun.
  - destruct (initialize_gpu_same_index s) as (Hi & _).
    destruct (initialize_gpu s) as [ok s1]. cbn [fst snd] in *.
    destruct ok; cbn [negb]; [by apply Hrun|].
    cbn [snd]. split_and!.
    + by apply (same_index_consistent s).
    + by destruct Hi as (_ & _ & _ & ->).
    + right. destruct Hi as (_ & _ & E3 & _). unfold get_cache_size. by rewrite E3.
Qed.

(** Three keys stored one after the other in an empty cache that keeps
    two entries. *)
Lemma three_stores_evict_the_first A B C bA bB bC fA fB fC s0 :
  A <> B -> A <> C -> B <> C ->
  lru_consistent s0 -> lru_list s0 = [] -> max_cache_entries s0 = 2 ->
  let sA := (store_placements A 0 bA fA s0).2 in
  let sB := (store_placements B 0 bB fB sA).2 in
  let sC := (store_placements C 0 bC fC sB).2 in
  (get_cache_size sA <= 2 /\ get_cache_size sB <= 2 /\ get_cache_size sC <= 2) /\
  lru_list sB = [mkChunkTypePair B 0; mkChunkTypePair A 0] /\
  lru_list sC = [mkChunkTypePair C 0; mkChunkTypePair B 0] /\
  absent (mkChunkTypePair A 0) sC /\
  (forall r, handle_of (mkChunkTypePair A 0) sB r -> is_valid r = true -> r ∉ live sC) /\
  is_chunk_ready A 0 sC = false /\
  is_chunk_ready B 0 sC = true /\
  is_chunk_ready C 0 sC = true /\
  untouched (mkChunkTypePair B 0) sB sC.
Proof.
  intros HAB HAC HBC Hs0 Hl0 Hm0. cbv zeta.
  assert (Hfresh : forall s k, lru_consistent s -> k ∉ lru_list s ->
            lookup_key k (placement_cache s) = None).
  { intros s k (_ & _ & Hpc & _) Hk. apply eq_None_not_Some. by rewrite Hpc. }
  (* A *)
  destruct (store_placements_spec A 0 bA fA s0 Hs0 ltac:(lia)) as (HcA & HlA & HmA & HbA & _).
  { apply Hfresh; [done|]. rewrite Hl0. apply not_elem_of_nil. }
  set (sA := (store_placements A 0 bA fA s0).2) in *. clearbody sA.
  rewrite Hl0 in HlA. rewrite Hm0 in HlA, HbA, HmA.
  change (Z.to_nat 2) with 2%nat in HlA. cbn in HlA.
  (* B *)
  destruct (store_placements_spec B 0 bB fB sA HcA ltac:(lia)) as (HcB & HlB & HmB & HbB & _).
  { apply Hfresh; [done|]. rewrite HlA. rewrite not_elem_of_cons. split; [congruence|].
    apply not_elem_of_nil. }
  set (sB := (store_placements B 0 bB fB sA).2) in *. clearbody sB.
  rewrite HlA in HlB. rewrite HmA in HlB, HbB, HmB.
  change (Z.to_nat 2) with 2%nat in HlB. cbn in HlB.
  (* C *)
  assert (HabsC : lookup_key (mkChunkTypePair C 0) (placement_cache sB) = None).
  { apply Hfresh; [done|]. rewrite HlB. rewrite !not_elem_of_cons.
    split_and!; [congruence|congruence|apply not_elem_of_nil]. }
  destruct (store_placements_spec C 0 bC fC sB HcB ltac:(lia) HabsC)
    as (HcC & HlC & HmC & HbC & (Habs & Hunt & _ & Hrel)).
  destruct (insert_placements_spec C 0 bC fC sB HcB HabsC) as (_ & _ & _ & _ & _ & _ & Hins).
  set (sC := (store_placements C 0 bC fC sB).2) in *. clearbody sC.
  set (iC := (insert_placements C 0 bC fC sB).2) in *. clearbody iC.
  rewrite HlB in HlC, Habs, Hunt, Hrel. rewrite HmB in HlC, HbC, Habs, Hunt, Hrel.
  change (Z.to_nat 2) with 2%nat in HlC, Habs, Hunt, Hrel.
  cbn in HlC, Habs, Hunt, Hrel.
  assert (HAin : mkChunkTypePair A 0 ∈ [mkChunkTypePair A 0]) by by left.
  assert (HBout : mkChunkTypePair B 0 ∉ [mkChunkTypePair A 0]).
  { rewrite not_elem_of_cons. split; [congruence|apply not_elem_of_nil]. }
  split_and!; try done.
  - apply (Habs _ HAin).
  - intros r Hr Hv. apply (Hrel _ r HAin); [|done].
    destruct (Hins (mkChunkTypePair A 0) ltac:(congruence)) as (_ & E2 & E3).
    unfold handle_of in *. by rewrite E2, E3.
  - apply not_true_is_false. rewrite is_chunk_ready_iff by done. rewrite HlC.
    rewrite !not_elem_of_cons. split_and!; [congruence|congruence|apply not_elem_of_nil].
  - rewrite is_chunk_ready_iff by done. rewrite HlC. by right; left.
  - rewrite is_chunk_ready_iff by done. rewrite HlC. by left.
  - destruct (Hunt _ HBout) as (U1 & U2 & U3).
    destruct (Hins (mkChunkTypePair B 0) ltac:(congruence)) as (I1 & I2 & I3).
    unfold untouched. by rewrite U1, U2, U3.
Qed.

(** C6.  With [max_cache_entries = 2], entries inserted for the keys
    (A,0), (B,0), (C,0), in this order and with no access in between,
    evict exactly the least recently used key (A,0): its decoded list is
    removed, its placement buffer and its transform buffer are released,
    and (B,0) and (C,0) stay.  After every insertion the number of decoded
    entries is at most [max_cache_entries]. *)
Theorem lru_eviction_keeps_most_recent :
  (forall c t params biome cpu_fallback s,
     lru_consistent s -> 0 <= max_cache_entries s ->
     lru_consistent (generate_placements c t params biome cpu_fallback s).2 /\
     max_cache_entries (generate_placements c t params biome cpu_fallback s).2
     = max_cache_entries s /\
     (get_cache_size (generate_placements c t params biome cpu_fallback s).2
      <= max_cache_entries s \/
      get_cache_size (generate_placements c t params biome cpu_fallback s).2
      = get_cache_size s))
  /\
  (forall A B C bA bB bC fA fB fC s0,
     A <> B -> A <> C -> B <> C ->
     lru_consistent s0 -> lru_list s0 = [] -> max_cache_entries s0 = 2 ->
     let sA := (store_placements A 0 bA fA s0).2 in
     let sB := (store_placements B 0 bB fB sA).2 in
     let sC := (store_placements C 0 bC fC sB).2 in
     (get_cache_size sA <= 2 /\ get_cache_size sB <= 2 /\ get_cache_size sC <= 2) /\
     lru_list sB = [mkChunkTypePair B 0; mkChunkTypePair A 0] /\
     lru_list sC = [mkChunkTypePair C 0; mkChunkTypePair B 0] /\
     absent (mkChunkTypePair A 0) sC /\
     (forall r, handle_of (mkChunkTypePair A 0) sB r -> is_valid r = true ->
                r ∉ live sC) /\
     is_chunk_ready A 0 sC = false /\
     is_chunk_ready B 0 sC = true /\
     is_chunk_ready C 0 sC = true /\
     untouched (mkChunkTypePair B 0) sB sC)
  /\
  (let generate origin s :=
     generate_placements origin 0 Scenario.sample_params 55%N true s in
   let first := generate Scenario.chunk_A Scenario.vegetation in
   let with_transform := get_transform_buffer_rid Scenario.chunk_A 0 first.2 in
   let second := generate Scenario.chunk_B with_transform.2 in
   let third := generate Scenario.chunk_C second.2 in
   lru_consistent Scenario.vegetation /\
   first.1 = map placement_of Scenario.sample_records /\
   (get_cache_size first.2 = 1 /\ get_cache_size second.2 = 2 /\
    get_cache_size third.2 = 2) /\
   (get_placement_buffer_rid Scenario.chunk_A 0 second.2 = 6%N /\
    with_transform.1 = 8%N /\
    bool_decide (6%N ∈ live second.2) = true /\
    bool_decide (8%N ∈ live second.2) = true) /\
   (bool_decide (6%N ∈ live third.2) = false /\
    bool_decide (8%N ∈ live third.2) = false /\
    get_placement_buffer_rid Scenario.chunk_A 0 third.2 = RID_null /\
    nested_lookup Scenario.chunk_A 0 (transform_buffer_cache third.2) = None) /\
   lru_list third.2
   = [mkChunkTypePair Scenario.chunk_C 0; mkChunkTypePair Scenario.chunk_B 0] /\
   (is_chunk_ready Scenario.chunk_A 0 third.2 = false /\
    is_chunk_ready Scenario.chunk_B 0 third.2 = true /\
    is_chunk_ready Scenario.chunk_C 0 third.2 = true)).
Proof.
  split; [|split].
  - intros. by apply generate_placements_consistent.
  - intros. by apply three_stores_evict_the_first.
  - cbv zeta. split; [apply construct_lru_consistent|].
    split_and!; vm_compute; reflexivity.
Qed.

Lemma lru_eviction_witness :
  lru_list
    (store_placements Scenario.chunk_C 0 12%N false
       (store_placements Scenario.chunk_B 0 10%N false
          (store_placements Scenario.chunk_A 0 6%N false Scenario.vegetation).2).2).2
  = [mkChunkTypePair Scenario.chunk_C 0; mkChunkTypePair Scenario.chunk_B 0].
Proof.
  refine (proj1 (proj2 (proj2
            (proj1 (proj2 lru_eviction_keeps_most_recent)
               Scenario.chunk_A Scenario.chunk_B Scenario.chunk_C
               6%N 10%N 12%N false false false Scenario.vegetation
               _ _ _ _ _ _)))); try done.
  apply construct_lru_consistent.
Defined.

End VegetationCache.

(** * Unwinding after a failed allocation *)

Module FailureUnwinding.

(** C8 (the code departs from it).  An attempt that fails part-way should
    release what it has allocated, return an empty result and leave no
    entry behind.  An empty result of [generate_chunk_sdf] never leaves an
    entry in the in-flight map or in the cache, and the attempt unwinds
    when the material texture or the uniform set cannot be created (all
    that stays allocated is the biome map and the sampler, which are
    shared).  When the biome map is unavailable it returns after the two
    chunk textures were created and frees neither: the two textures stay
    allocated with nothing referring to them.  [generate_placements]
    frees its storage buffer when the uniform set is refused and leaves
    its caches and the LRU index as they were. *)
Theorem biome_map_failure_leaks_chunk_textures :
  (forall origin s,
     (NativeTerrainGenerator.generate_chunk_sdf origin s).1 = ∅ ->
     NativeTerrainGenerator.chunk_gpu_states
       (NativeTerrainGenerator.generate_chunk_sdf origin s).2
     = NativeTerrainGenerator.chunk_gpu_states s /\
     NativeTerrainGenerator.sdf_cache
       (NativeTerrainGenerator.generate_chunk_sdf origin s).2
     = NativeTerrainGenerator.sdf_cache s)
  /\
  (let origin := mkVector3i 0 0 0 in
   let s := NativeTerrainGenerator.construct
              (Scenario.refusing_host Scenario.no_biome_map) in
   let attempt := NativeTerrainGenerator.generate_chunk_sdf origin s in
   NativeTerrainGenerator.gpu_initialized s = true /\
   attempt.1 = ∅ /\
   NativeTerrainGenerator.chunk_gpu_states attempt.2 = ∅ /\
   NativeTerrainGenerator.sdf_cache attempt.2 = ∅ /\
   NativeTerrainGenerator.biome_map_texture attempt.2 = RID_null /\
   TerrainCache.left_allocated s attempt.2 = {[ 5%N; 6%N ]})
  /\
  (let origin := mkVector3i 0 0 0 in
   let s := NativeTerrainGenerator.construct
              (Scenario.refusing_host Scenario.no_material_texture) in
   let attempt := NativeTerrainGenerator.generate_chunk_sdf origin s in
   attempt.1 = ∅ /\
   NativeTerrainGenerator.chunk_gpu_states attempt.2 = ∅ /\
   NativeTerrainGenerator.sdf_cache attempt.2 = ∅ /\
   TerrainCache.left_allocated s attempt.2
   = {[ NativeTerrainGenerator.biome_map_texture attempt.2 ]})
  /\
  (let origin := mkVector3i 0 0 0 in
   let s := NativeTerrainGenerator.construct
              (Scenario.refusing_host Scenario.no_uniform_set) in
   let attempt := NativeTerrainGenerator.generate_chunk_sdf origin s in
   attempt.1 = ∅ /\
   NativeTerrainGenerator.chunk_gpu_states attempt.2 = ∅ /\
   NativeTerrainGenerator.sdf_cache attempt.2 = ∅ /\
   TerrainCache.left_allocated s attempt.2
   = {[ NativeTerrainGenerator.biome_map_texture attempt.2;
        NativeTerrainGenerator.cached_sampler attempt.2 ]})
  /\
  (forall c t params biome cpu_fallback s d f rest,
     NativeVegetationDispatcher.gpu_initialized s = true ->
     NativeVegetationDispatcher.nested_lookup c t
       (NativeVegetationDispatcher.placement_cache s) = None ->
     is_valid biome = true ->
     NativeVegetationDispatcher.terrain_dispatcher s = Some f ->
     is_valid (f c) = true ->
     NativeVegetationDispatcher.rd s = Some d ->
     rd_outcomes d = true :: false :: rest ->
     let attempt :=
       NativeVegetationDispatcher.generate_placements c t params biome cpu_fallback s in
     attempt.1 = [] /\
     VegetationCache.same_index s attempt.2 /\
     NativeVegetationDispatcher.buffer_cache attempt.2
     = NativeVegetationDispatcher.buffer_cache s /\
     NativeVegetationDispatcher.transform_buffer_cache attempt.2
     = NativeVegetationDispatcher.transform_buffer_cache s /\
     VegetationCache.live attempt.2 ⊆ VegetationCache.live s)
  /\
  (let s := Scenario.vegetation_no_uniform_set in
   let attempt :=
     NativeVegetationDispatcher.generate_placements
       Scenario.chunk_A 0 Scenario.sample_params 55%N true s in
   attempt.1 = [] /\
   NativeVegetationDispatcher.get_cache_size attempt.2 = 0 /\
   NativeVegetationDispatcher.buffer_cache attempt.2 = ∅ /\
   NativeVegetationDispatcher.lru_list attempt.2 = [] /\
   (rd_dispatch_log <$> NativeVegetationDispatcher.rd attempt.2) = Some [] /\
   VegetationCache.live attempt.2
   = VegetationCache.live (NativeVegetationDispatcher.initialize_gpu s).2).
Proof.
  split; [apply TerrainCache.generate_chunk_sdf_empty_result|].
  split_and!.
  1-3: cbv zeta; split_and!; vm_compute; reflexivity.
  - intros c t params biome cpu_fallback s d f rest Hi Hm Hb Hf Hv Hd Ho. cbv zeta.
    destruct (VegetationCache.generate_placements_refused_uniform_set
                c t params biome cpu_fallback s d f rest)
      as (R1 & R2 & R3 & R4 & _ & R6); try done.
  - cbv zeta. split_and!; vm_compute; reflexivity.
Qed.

End FailureUnwinding.
